(** * NOR flash driver of the STM324x9I-EVAL board (stm324x9i_eval_nor.c)

    A shallow embedding of the driver and the proofs of its protocol
    properties.  The driver keeps two file-scope variables ([norHandle] and
    [Timing]) and forwards every public call to the memory-controller layer.
    The embedding threads the two variables and the state of the outside
    world through a small monad that also logs every call made to the
    controller layer, in the order the calls are made. *)

From Stdlib Require Import ZArith List Bool Lia.
Import ListNotations.
Local Open Scope Z_scope.

(** ** 32-bit unsigned arithmetic ([uint32_t]) *)

Module U32.

Definition modulus : Z := 2 ^ 32.

Definition wrap (x : Z) : Z := x mod modulus.

(** [a + b] on [uint32_t]. *)
Definition add (a b : Z) : Z := wrap (a + b).

(** [a - b] on [uint32_t]. *)
Definition sub (a b : Z) : Z := wrap (a - b).

End U32.

(** ** Types of the controller layer *)

(** Modelled from the spec: the status enumeration returned by the controller
    layer's open, bulk-read and read-id calls.  Its declaration is in the
    controller layer's headers; the driver only compares against [HAL_OK]
    and collapses every other code to an error. *)
Inductive HAL_StatusTypeDef : Type :=
| HAL_OK
| HAL_ERROR
| HAL_BUSY
| HAL_TIMEOUT.

(** Modelled from the spec: the result of the controller layer's status
    query (success or one of the failure codes).  The driver only compares
    against [NOR_SUCCESS]. *)
Inductive HAL_NOR_StatusTypeDef : Type :=
| NOR_SUCCESS
| NOR_ONGOING
| NOR_ERROR
| NOR_TIMEOUT.

(** Modelled from the spec: the two levels of the ready/busy signal pin. *)
Inductive GPIO_PinState : Type :=
| GPIO_PIN_RESET
| GPIO_PIN_SET.

(** The [uint8_t] status the public functions return: the source only ever
    returns one of the two macros [NOR_STATUS_OK] and [NOR_STATUS_ERROR]. *)
Inductive NOR_Status : Type :=
| NOR_STATUS_OK
| NOR_STATUS_ERROR.

Definition HAL_Status_eqb (a b : HAL_StatusTypeDef) : bool :=
  match a, b with
  | HAL_OK, HAL_OK | HAL_ERROR, HAL_ERROR
  | HAL_BUSY, HAL_BUSY | HAL_TIMEOUT, HAL_TIMEOUT => true
  | _, _ => false
  end.

Definition NOR_Status_eqb (a b : HAL_NOR_StatusTypeDef) : bool :=
  match a, b with
  | NOR_SUCCESS, NOR_SUCCESS | NOR_ONGOING, NOR_ONGOING
  | NOR_ERROR, NOR_ERROR | NOR_TIMEOUT, NOR_TIMEOUT => true
  | _, _ => false
  end.

Definition PinState_eqb (a b : GPIO_PinState) : bool :=
  match a, b with
  | GPIO_PIN_RESET, GPIO_PIN_RESET | GPIO_PIN_SET, GPIO_PIN_SET => true
  | _, _ => false
  end.

(** Bus timing parameters: the fields the driver assigns. *)
Record FMC_NORSRAM_TimingTypeDef : Type := mkTiming {
  AddressSetupTime : Z;
  AddressHoldTime : Z;
  DataSetupTime : Z;
  BusTurnAroundDuration : Z;
  CLKDivision : Z;
  DataLatency : Z;
  AccessMode : Z
}.

(** Device mode flags: the fields the driver assigns. *)
Record FMC_NORSRAM_InitTypeDef : Type := mkInit {
  NSBank : Z;
  DataAddressMux : Z;
  MemoryType : Z;
  MemoryDataWidth : Z;
  BurstAccessMode : Z;
  WaitSignalPolarity : Z;
  WrapMode : Z;
  WaitSignalActive : Z;
  WriteOperation : Z;
  WaitSignal : Z;
  ExtendedMode : Z;
  AsynchronousWait : Z;
  WriteBurst : Z;
  ContinuousClock : Z
}.

(** The device handle, as far as this file writes it.  The bookkeeping the
    controller layer keeps for itself about an open device is part of the
    controller's own state (see [Controller] below). *)
Record NOR_HandleTypeDef : Type := mkHandle {
  Instance : Z;
  Extended : Z;
  Init : FMC_NORSRAM_InitTypeDef
}.

(** *** Field assignments

    C assigns one field at a time; each setter rebuilds the record with one
    field replaced and the others kept. *)

Definition set_AddressSetupTime v (t : FMC_NORSRAM_TimingTypeDef) :=
  mkTiming v (AddressHoldTime t) (DataSetupTime t) (BusTurnAroundDuration t)
           (CLKDivision t) (DataLatency t) (AccessMode t).
Definition set_AddressHoldTime v (t : FMC_NORSRAM_TimingTypeDef) :=
  mkTiming (AddressSetupTime t) v (DataSetupTime t) (BusTurnAroundDuration t)
           (CLKDivision t) (DataLatency t) (AccessMode t).
Definition set_DataSetupTime v (t : FMC_NORSRAM_TimingTypeDef) :=
  mkTiming (AddressSetupTime t) (AddressHoldTime t) v (BusTurnAroundDuration t)
           (CLKDivision t) (DataLatency t) (AccessMode t).
Definition set_BusTurnAroundDuration v (t : FMC_NORSRAM_TimingTypeDef) :=
  mkTiming (AddressSetupTime t) (AddressHoldTime t) (DataSetupTime t) v
           (CLKDivision t) (DataLatency t) (AccessMode t).
Definition set_CLKDivision v (t : FMC_NORSRAM_TimingTypeDef) :=
  mkTiming (AddressSetupTime t) (AddressHoldTime t) (DataSetupTime t)
           (BusTurnAroundDuration t) v (DataLatency t) (AccessMode t).
Definition set_DataLatency v (t : FMC_NORSRAM_TimingTypeDef) :=
  mkTiming (AddressSetupTime t) (AddressHoldTime t) (DataSetupTime t)
           (BusTurnAroundDuration t) (CLKDivision t) v (AccessMode t).
Definition set_AccessMode v (t : FMC_NORSRAM_TimingTypeDef) :=
  mkTiming (AddressSetupTime t) (AddressHoldTime t) (DataSetupTime t)
           (BusTurnAroundDuration t) (CLKDivision t) (DataLatency t) v.

Definition set_NSBank v (i : FMC_NORSRAM_InitTypeDef) :=
  mkInit v (DataAddressMux i) (MemoryType i) (MemoryDataWidth i)
         (BurstAccessMode i) (WaitSignalPolarity i) (WrapMode i)
         (WaitSignalActive i) (WriteOperation i) (WaitSignal i)
         (ExtendedMode i) (AsynchronousWait i) (WriteBurst i)
         (ContinuousClock i).
Definition set_DataAddressMux v (i : FMC_NORSRAM_InitTypeDef) :=
  mkInit (NSBank i) v (MemoryType i) (MemoryDataWidth i)
         (BurstAccessMode i) (WaitSignalPolarity i) (WrapMode i)
         (WaitSignalActive i) (WriteOperation i) (WaitSignal i)
         (ExtendedMode i) (AsynchronousWait i) (WriteBurst i)
         (ContinuousClock i).
Definition set_MemoryType v (i : FMC_NORSRAM_InitTypeDef) :=
  mkInit (NSBank i) (DataAddressMux i) v (MemoryDataWidth i)
         (BurstAccessMode i) (WaitSignalPolarity i) (WrapMode i)
         (WaitSignalActive i) (WriteOperation i) (WaitSignal i)
         (ExtendedMode i) (AsynchronousWait i) (WriteBurst i)
         (ContinuousClock i).
Definition set_MemoryDataWidth v (i : FMC_NORSRAM_InitTypeDef) :=
  mkInit (NSBank i) (DataAddressMux i) (MemoryType i) v
         (BurstAccessMode i) (WaitSignalPolarity i) (WrapMode i)
         (WaitSignalActive i) (WriteOperation i) (WaitSignal i)
         (ExtendedMode i) (AsynchronousWait i) (WriteBurst i)
         (ContinuousClock i).
Definition set_BurstAccessMode v (i : FMC_NORSRAM_InitTypeDef) :=
  mkInit (NSBank i) (DataAddressMux i) (MemoryType i) (MemoryDataWidth i)
         v (WaitSignalPolarity i) (WrapMode i)
         (WaitSignalActive i) (WriteOperation i) (WaitSignal i)
         (ExtendedMode i) (AsynchronousWait i) (WriteBurst i)
         (ContinuousClock i).
Definition set_WaitSignalPolarity v (i : FMC_NORSRAM_InitTypeDef) :=
  mkInit (NSBank i) (DataAddressMux i) (MemoryType i) (MemoryDataWidth i)
         (BurstAccessMode i) v (WrapMode i)
         (WaitSignalActive i) (WriteOperation i) (WaitSignal i)
         (ExtendedMode i) (AsynchronousWait i) (WriteBurst i)
         (ContinuousClock i).
Definition set_WrapMode v (i : FMC_NORSRAM_InitTypeDef) :=
  mkInit (NSBank i) (DataAddressMux i) (MemoryType i) (MemoryDataWidth i)
         (BurstAccessMode i) (WaitSignalPolarity i) v
         (WaitSignalActive i) (WriteOperation i) (WaitSignal i)
         (ExtendedMode i) (AsynchronousWait i) (WriteBurst i)
         (ContinuousClock i).
Definition set_WaitSignalActive v (i : FMC_NORSRAM_InitTypeDef) :=
  mkInit (NSBank i) (DataAddressMux i) (MemoryType i) (MemoryDataWidth i)
         (BurstAccessMode i) (WaitSignalPolarity i) (WrapMode i)
         v (WriteOperation i) (WaitSignal i)
         (ExtendedMode i) (AsynchronousWait i) (WriteBurst i)
         (ContinuousClock i).
Definition set_WriteOperation v (i : FMC_NORSRAM_InitTypeDef) :=
  mkInit (NSBank i) (DataAddressMux i) (MemoryType i) (MemoryDataWidth i)
         (BurstAccessMode i) (WaitSignalPolarity i) (WrapMode i)
         (WaitSignalActive i) v (WaitSignal i)
         (ExtendedMode i) (AsynchronousWait i) (WriteBurst i)
         (ContinuousClock i).
Definition set_WaitSignal v (i : FMC_NORSRAM_InitTypeDef) :=
  mkInit (NSBank i) (DataAddressMux i) (MemoryType i) (MemoryDataWidth i)
         (BurstAccessMode i) (WaitSignalPolarity i) (WrapMode i)
         (WaitSignalActive i) (WriteOperation i) v
         (ExtendedMode i) (AsynchronousWait i) (WriteBurst i)
         (ContinuousClock i).
Definition set_ExtendedMode v (i : FMC_NORSRAM_InitTypeDef) :=
  mkInit (NSBank i) (DataAddressMux i) (MemoryType i) (MemoryDataWidth i)
         (BurstAccessMode i) (WaitSignalPolarity i) (WrapMode i)
         (WaitSignalActive i) (WriteOperation i) (WaitSignal i)
         v (AsynchronousWait i) (WriteBurst i)
         (ContinuousClock i).
Definition set_AsynchronousWait v (i : FMC_NORSRAM_InitTypeDef) :=
  mkInit (NSBank i) (DataAddressMux i) (MemoryType i) (MemoryDataWidth i)
         (BurstAccessMode i) (WaitSignalPolarity i) (WrapMode i)
         (WaitSignalActive i) (WriteOperation i) (WaitSignal i)
         (ExtendedMode i) v (WriteBurst i)
         (ContinuousClock i).
Definition set_WriteBurst v (i : FMC_NORSRAM_InitTypeDef) :=
  mkInit (NSBank i) (DataAddressMux i) (MemoryType i) (MemoryDataWidth i)
         (BurstAccessMode i) (WaitSignalPolarity i) (WrapMode i)
         (WaitSignalActive i) (WriteOperation i) (WaitSignal i)
         (ExtendedMode i) (AsynchronousWait i) v
         (ContinuousClock i).
Definition set_ContinuousClock v (i : FMC_NORSRAM_InitTypeDef) :=
  mkInit (NSBank i) (DataAddressMux i) (MemoryType i) (MemoryDataWidth i)
         (BurstAccessMode i) (WaitSignalPolarity i) (WrapMode i)
         (WaitSignalActive i) (WriteOperation i) (WaitSignal i)
         (ExtendedMode i) (AsynchronousWait i) (WriteBurst i)
         v.

Definition set_Instance v (h : NOR_HandleTypeDef) :=
  mkHandle v (Extended h) (Init h).
Definition set_Extended v (h : NOR_HandleTypeDef) :=
  mkHandle (Instance h) v (Init h).
(** [hnor.Init.f = v] is an update of the nested record. *)
Definition set_Init (upd : FMC_NORSRAM_InitTypeDef -> FMC_NORSRAM_InitTypeDef)
    (h : NOR_HandleTypeDef) :=
  mkHandle (Instance h) (Extended h) (upd (Init h)).


(** ** The board and controller headers

    The macros the source uses are defined in headers that are not among the
    sources (the board header and the controller layer's headers); their
    values are parameters of the development. *)
Class NorHeader : Type := {
  NOR_DEVICE_ADDR : Z;
  PROGRAM_TIMEOUT : Z;
  BLOCKERASE_TIMEOUT : Z;
  CHIPERASE_TIMEOUT : Z;
  NOR_MEMORY_WIDTH : Z;
  NOR_BURSTACCESS : Z;
  NOR_WRITEBURST : Z;
  CONTINUOUSCLOCK_FEATURE : Z;
  NOR_READY_BUSY_GPIO : Z;
  NOR_READY_BUSY_PIN : Z;
  NOR_READY_STATE : GPIO_PinState;
  NOR_BUSY_STATE : GPIO_PinState;
  FMC_NORSRAM_DEVICE : Z;
  FMC_NORSRAM_EXTENDED_DEVICE : Z;
  FMC_ACCESS_MODE_A : Z;
  FMC_NORSRAM_BANK1 : Z;
  FMC_DATA_ADDRESS_MUX_DISABLE : Z;
  FMC_MEMORY_TYPE_NOR : Z;
  FMC_WAIT_SIGNAL_POLARITY_LOW : Z;
  FMC_WRAP_MODE_DISABLE : Z;
  FMC_WAIT_TIMING_BEFORE_WS : Z;
  FMC_WRITE_OPERATION_ENABLE : Z;
  FMC_WAIT_SIGNAL_ENABLE : Z;
  FMC_EXTENDED_MODE_DISABLE : Z;
  FMC_ASYNCHRONOUS_WAIT_ENABLE : Z
}.

(** ** The controller layer

    Modelled from the spec: the controller abstraction the driver calls into
    (open, bulk-read, program-word, program-buffer, erase-block, erase-chip,
    get-status, read-id, return-to-read-mode), the board-setup hook and the
    pin-read primitive.  None of them is defined in the sources.  [W] is the
    state of everything outside the driver's two variables: the flash chip,
    the controller's own bookkeeping about the open device, the caller's
    buffers.  The handle is passed by address in C; the controller reads the
    fields the driver has assigned.  A [uint16_t*] is the index of a
    half-word in the caller's memory, so that [p + 1] is the next half-word. *)
Class Controller (W : Type) : Type := {
  board_setup : W -> W;
  open : NOR_HandleTypeDef -> FMC_NORSRAM_TimingTypeDef ->
         FMC_NORSRAM_TimingTypeDef -> W -> HAL_StatusTypeDef * W;
  bulk_read : NOR_HandleTypeDef -> Z -> Z -> Z -> W -> HAL_StatusTypeDef * W;
  return_to_read_mode : NOR_HandleTypeDef -> W -> W;
  program_word : NOR_HandleTypeDef -> Z -> Z -> W -> W;
  get_status : NOR_HandleTypeDef -> Z -> Z -> W -> HAL_NOR_StatusTypeDef * W;
  program_buffer : NOR_HandleTypeDef -> Z -> Z -> Z -> W -> W;
  erase_block : NOR_HandleTypeDef -> Z -> Z -> W -> W;
  erase_chip : NOR_HandleTypeDef -> Z -> W -> W;
  read_id : NOR_HandleTypeDef -> Z -> W -> HAL_StatusTypeDef * W;
  read_pin : Z -> Z -> W -> GPIO_PinState * W
}.

(** One entry of the call log: the function called, the arguments after the
    handle (every call of the driver passes [&norHandle]) and, where the
    callee returns a value the caller looks at, that value. *)
Inductive HAL_Call : Type :=
| Call_BSP_NOR_MspInit
| Call_HAL_NOR_Init (hnor : NOR_HandleTypeDef)
    (pTiming pExtTiming : FMC_NORSRAM_TimingTypeDef) (ret : HAL_StatusTypeDef)
| Call_HAL_NOR_ReadBuffer (uwAddress pData uwBufferSize : Z)
    (ret : HAL_StatusTypeDef)
| Call_HAL_NOR_ReturnToReadMode
| Call_HAL_NOR_Program (pAddress pData : Z)
| Call_HAL_NOR_GetStatus (Address Timeout : Z) (ret : HAL_NOR_StatusTypeDef)
| Call_HAL_NOR_ProgramBuffer (uwAddress pData uwBufferSize : Z)
| Call_HAL_NOR_Erase_Block (BlockAddress Address : Z)
| Call_HAL_NOR_Erase_Chip (Address : Z)
| Call_HAL_NOR_Read_ID (pNOR_ID : Z) (ret : HAL_StatusTypeDef)
| Call_HAL_GPIO_ReadPin (GPIOx GPIO_Pin : Z) (ret : GPIO_PinState).

(** ** Program state and the driver monad *)

(** The two file-scope variables of the driver and the outside world. *)
Record State (W : Type) : Type := mkState {
  norHandle : NOR_HandleTypeDef;
  Timing : FMC_NORSRAM_TimingTypeDef;
  hw : W
}.
Arguments mkState {W} _ _ _.
Arguments norHandle {W} _.
Arguments Timing {W} _.
Arguments hw {W} _.

(** A computation returns a value, the next state and the calls it made. *)
Definition M (W A : Type) : Type := State W -> A * State W * list HAL_Call.

Definition ret {W A} (a : A) : M W A := fun s => (a, s, []).

Definition bind {W A B} (m : M W A) (k : A -> M W B) : M W B :=
  fun s =>
    let '(a, s1, l1) := m s in
    let '(b, s2, l2) := k a s1 in
    (b, s2, l1 ++ l2).

Notation "x <- m ;; k" := (bind m (fun x => k))
  (at level 61, m at next level, right associativity).
Notation "m ;; k" := (bind m (fun _ => k))
  (at level 61, right associativity).

(** Observations of a run. *)
Definition result {W A} (m : M W A) (s : State W) : A := fst (fst (m s)).
Definition final {W A} (m : M W A) (s : State W) : State W := snd (fst (m s)).
Definition calls {W A} (m : M W A) (s : State W) : list HAL_Call := snd (m s).

(** The status polls of a call log, in order, and its program commands. *)
Definition polls (l : list HAL_Call) : list HAL_NOR_StatusTypeDef :=
  flat_map (fun c => match c with
                     | Call_HAL_NOR_GetStatus _ _ r => [r]
                     | _ => []
                     end) l.

Definition is_program (c : HAL_Call) : bool :=
  match c with Call_HAL_NOR_Program _ _ => true | _ => false end.

Definition is_poll (c : HAL_Call) : bool :=
  match c with Call_HAL_NOR_GetStatus _ _ _ => true | _ => false end.

Definition programs (l : list HAL_Call) : list HAL_Call := filter is_program l.

Definition succeeded (r : HAL_NOR_StatusTypeDef) : bool :=
  NOR_Status_eqb r NOR_SUCCESS.

Section Driver.

Context {hdr : NorHeader} {W : Type} {ctl : Controller W}.

(** *** Assignments to the two variables *)

Definition assign_norHandle (f : NOR_HandleTypeDef -> NOR_HandleTypeDef)
  : M W unit :=
  fun s => (tt, mkState (f (norHandle s)) (Timing s) (hw s), []).

Definition assign_Timing
    (f : FMC_NORSRAM_TimingTypeDef -> FMC_NORSRAM_TimingTypeDef) : M W unit :=
  fun s => (tt, mkState (norHandle s) (f (Timing s)) (hw s), []).

(** *** Calls into the controller layer

    Each wrapper passes [&norHandle], lets the controller act on the outside
    world and logs the call. *)

Definition effect (f : NOR_HandleTypeDef -> W -> W) (c : HAL_Call)
  : M W unit :=
  fun s => (tt, mkState (norHandle s) (Timing s) (f (norHandle s) (hw s)), [c]).

Definition query {R} (f : NOR_HandleTypeDef -> W -> R * W)
    (c : R -> HAL_Call) : M W R :=
  fun s =>
    let '(r, w) := f (norHandle s) (hw s) in
    (r, mkState (norHandle s) (Timing s) w, [c r]).

(** [BSP_NOR_MspInit] is a weak symbol: the call in [BSP_NOR_Init] reaches
    whichever definition is linked, the default one (clock enables and pin
    set-up) or the application's.  It takes no argument and cannot name the
    two static variables; its effect on the outside world is [board_setup]. *)
Definition BSP_NOR_MspInit : M W unit :=
  effect (fun _ => board_setup) Call_BSP_NOR_MspInit.

(** The two timing arguments are addresses of driver variables: a pointer to
    a variable is the projection that reads it. *)
Definition HAL_NOR_Init
    (pTiming pExtTiming : State W -> FMC_NORSRAM_TimingTypeDef)
  : M W HAL_StatusTypeDef :=
  fun s =>
    query (fun h => open h (pTiming s) (pExtTiming s))
          (Call_HAL_NOR_Init (norHandle s) (pTiming s) (pExtTiming s)) s.

Definition HAL_NOR_ReadBuffer (uwAddress pData uwBufferSize : Z)
  : M W HAL_StatusTypeDef :=
  query (fun h => bulk_read h uwAddress pData uwBufferSize)
        (Call_HAL_NOR_ReadBuffer uwAddress pData uwBufferSize).

Definition HAL_NOR_ReturnToReadMode : M W unit :=
  effect return_to_read_mode Call_HAL_NOR_ReturnToReadMode.

Definition HAL_NOR_Program (pAddress pData : Z) : M W unit :=
  effect (fun h => program_word h pAddress pData)
         (Call_HAL_NOR_Program pAddress pData).

Definition HAL_NOR_GetStatus (Address Timeout : Z)
  : M W HAL_NOR_StatusTypeDef :=
  query (fun h => get_status h Address Timeout)
        (Call_HAL_NOR_GetStatus Address Timeout).

Definition HAL_NOR_ProgramBuffer (uwAddress pData uwBufferSize : Z)
  : M W unit :=
  effect (fun h => program_buffer h uwAddress pData uwBufferSize)
         (Call_HAL_NOR_ProgramBuffer uwAddress pData uwBufferSize).

Definition HAL_NOR_Erase_Block (BlockAddress Address : Z) : M W unit :=
  effect (fun h => erase_block h BlockAddress Address)
         (Call_HAL_NOR_Erase_Block BlockAddress Address).

Definition HAL_NOR_Erase_Chip (Address : Z) : M W unit :=
  effect (fun h => erase_chip h Address) (Call_HAL_NOR_Erase_Chip Address).

Definition HAL_NOR_Read_ID (pNOR_ID : Z) : M W HAL_StatusTypeDef :=
  query (fun h => read_id h pNOR_ID) (Call_HAL_NOR_Read_ID pNOR_ID).

Definition HAL_GPIO_ReadPin (GPIOx GPIO_Pin : Z) : M W GPIO_PinState :=
  query (fun _ => read_pin GPIOx GPIO_Pin) (Call_HAL_GPIO_ReadPin GPIOx GPIO_Pin).

(** *** The driver *)

Definition BSP_NOR_Init : M W NOR_Status :=
  assign_norHandle (set_Instance FMC_NORSRAM_DEVICE) ;;
  assign_norHandle (set_Extended FMC_NORSRAM_EXTENDED_DEVICE) ;;
  assign_Timing (set_AddressSetupTime 8) ;;
  assign_Timing (set_AddressHoldTime 3) ;;
  assign_Timing (set_DataSetupTime 9) ;;
  assign_Timing (set_BusTurnAroundDuration 0) ;;
  assign_Timing (set_CLKDivision 2) ;;
  assign_Timing (set_DataLatency 2) ;;
  assign_Timing (set_AccessMode FMC_ACCESS_MODE_A) ;;
  assign_norHandle (set_Init (set_NSBank FMC_NORSRAM_BANK1)) ;;
  assign_norHandle (set_Init (set_DataAddressMux FMC_DATA_ADDRESS_MUX_DISABLE)) ;;
  assign_norHandle (set_Init (set_MemoryType FMC_MEMORY_TYPE_NOR)) ;;
  assign_norHandle (set_Init (set_MemoryDataWidth NOR_MEMORY_WIDTH)) ;;
  assign_norHandle (set_Init (set_BurstAccessMode NOR_BURSTACCESS)) ;;
  assign_norHandle (set_Init (set_WaitSignalPolarity FMC_WAIT_SIGNAL_POLARITY_LOW)) ;;
  assign_norHandle (set_Init (set_WrapMode FMC_WRAP_MODE_DISABLE)) ;;
  assign_norHandle (set_Init (set_WaitSignalActive FMC_WAIT_TIMING_BEFORE_WS)) ;;
  assign_norHandle (set_Init (set_WriteOperation FMC_WRITE_OPERATION_ENABLE)) ;;
  assign_norHandle (set_Init (set_WaitSignal FMC_WAIT_SIGNAL_ENABLE)) ;;
  assign_norHandle (set_Init (set_ExtendedMode FMC_EXTENDED_MODE_DISABLE)) ;;
  assign_norHandle (set_Init (set_AsynchronousWait FMC_ASYNCHRONOUS_WAIT_ENABLE)) ;;
  assign_norHandle (set_Init (set_WriteBurst NOR_WRITEBURST)) ;;
  assign_norHandle (set_Init (set_ContinuousClock CONTINUOUSCLOCK_FEATURE)) ;;
  BSP_NOR_MspInit ;;
  st <- HAL_NOR_Init Timing Timing ;;
  if negb (HAL_Status_eqb st HAL_OK)
  then ret NOR_STATUS_ERROR
  else ret NOR_STATUS_OK.

Definition BSP_NOR_ReadData (uwStartAddress pData uwDataSize : Z)
  : M W NOR_Status :=
  st <- HAL_NOR_ReadBuffer (U32.add NOR_DEVICE_ADDR uwStartAddress)
                           pData uwDataSize ;;
  if negb (HAL_Status_eqb st HAL_OK)
  then ret NOR_STATUS_ERROR
  else ret NOR_STATUS_OK.

Definition BSP_NOR_ReturnToReadMode : M W unit :=
  HAL_NOR_ReturnToReadMode.

(** The loop of [BSP_NOR_WriteData].  [index] is a [uint32_t] that starts at
    the word count and is decremented once per completed iteration until it
    is 0, so it is a natural number here; the address is a [uint32_t] and
    wraps, the data pointer advances by one half-word. *)
Fixpoint WriteData_loop (index : nat) (uwStartAddress pData : Z)
  : M W NOR_Status :=
  match index with
  | O => ret NOR_STATUS_OK
  | S index' =>
      HAL_NOR_Program (U32.add NOR_DEVICE_ADDR uwStartAddress) pData ;;
      st <- HAL_NOR_GetStatus NOR_DEVICE_ADDR PROGRAM_TIMEOUT ;;
      if negb (NOR_Status_eqb st NOR_SUCCESS)
      then ret NOR_STATUS_ERROR
      else WriteData_loop index' (U32.add uwStartAddress 2) (pData + 1)
  end.

Definition BSP_NOR_WriteData (uwStartAddress pData uwDataSize : Z)
  : M W NOR_Status :=
  WriteData_loop (Z.to_nat uwDataSize) uwStartAddress pData.

Definition BSP_NOR_ProgramData (uwStartAddress pData uwDataSize : Z)
  : M W NOR_Status :=
  HAL_NOR_ProgramBuffer uwStartAddress pData uwDataSize ;;
  st <- HAL_NOR_GetStatus NOR_DEVICE_ADDR PROGRAM_TIMEOUT ;;
  if negb (NOR_Status_eqb st NOR_SUCCESS)
  then ret NOR_STATUS_ERROR
  else ret NOR_STATUS_OK.

Definition BSP_NOR_Erase_Block (BlockAddress : Z) : M W NOR_Status :=
  HAL_NOR_Erase_Block BlockAddress NOR_DEVICE_ADDR ;;
  st <- HAL_NOR_GetStatus NOR_DEVICE_ADDR BLOCKERASE_TIMEOUT ;;
  if negb (NOR_Status_eqb st NOR_SUCCESS)
  then ret NOR_STATUS_ERROR
  else ret NOR_STATUS_OK.

Definition BSP_NOR_Erase_Chip : M W NOR_Status :=
  HAL_NOR_Erase_Chip NOR_DEVICE_ADDR ;;
  st <- HAL_NOR_GetStatus NOR_DEVICE_ADDR CHIPERASE_TIMEOUT ;;
  if negb (NOR_Status_eqb st NOR_SUCCESS)
  then ret NOR_STATUS_ERROR
  else ret NOR_STATUS_OK.

Definition BSP_NOR_Read_ID (pNOR_ID : Z) : M W NOR_Status :=
  st <- HAL_NOR_Read_ID pNOR_ID ;;
  if negb (HAL_Status_eqb st HAL_OK)
  then ret NOR_STATUS_ERROR
  else ret NOR_STATUS_OK.

(** One polling loop of [HAL_NOR_MspWait]: the pin is read, and while it is
    not in the awaited state and [timeout > 0] the counter is decremented.
    The loop is run with a bound [fuel] on the number of times its condition
    is evaluated; [None] means the bound was reached.  Besides the final
    counter the loop reports how many times its body ran. *)
Fixpoint MspWait_loop (fuel : nat) (awaited : GPIO_PinState) (timeout : Z)
    (iterations : nat) : M W (option (Z * nat)) :=
  match fuel with
  | O => ret None
  | S fuel' =>
      pin <- HAL_GPIO_ReadPin NOR_READY_BUSY_GPIO NOR_READY_BUSY_PIN ;;
      if negb (PinState_eqb pin awaited) && (0 <? timeout)
      then MspWait_loop fuel' awaited (U32.sub timeout 1) (S iterations)
      else ret (Some (timeout, iterations))
  end.

(** [HAL_NOR_MspWait]: wait for busy, reset the counter, wait for ready.  The
    handle argument is not used.  The result is the number of iterations of
    the first and of the second loop. *)
Definition HAL_NOR_MspWait (fuel : nat) (Timeout : Z)
  : M W (option (nat * nat)) :=
  r1 <- MspWait_loop fuel NOR_BUSY_STATE Timeout 0 ;;
  match r1 with
  | None => ret None
  | Some (_, n1) =>
      r2 <- MspWait_loop fuel NOR_READY_STATE Timeout 0 ;;
      match r2 with
      | None => ret None
      | Some (_, n2) => ret (Some (n1, n2))
      end
  end.

End Driver.

(** ** Reference descriptions used in the statements *)

Section Reference.

Context {hdr : NorHeader}.

(** The values [BSP_NOR_Init] is meant to leave in the configuration. *)
Definition board_Timing : FMC_NORSRAM_TimingTypeDef :=
  mkTiming 8 3 9 0 2 2 FMC_ACCESS_MODE_A.

Definition board_Init : FMC_NORSRAM_InitTypeDef :=
  mkInit FMC_NORSRAM_BANK1 FMC_DATA_ADDRESS_MUX_DISABLE FMC_MEMORY_TYPE_NOR
         NOR_MEMORY_WIDTH NOR_BURSTACCESS FMC_WAIT_SIGNAL_POLARITY_LOW
         FMC_WRAP_MODE_DISABLE FMC_WAIT_TIMING_BEFORE_WS
         FMC_WRITE_OPERATION_ENABLE FMC_WAIT_SIGNAL_ENABLE
         FMC_EXTENDED_MODE_DISABLE FMC_ASYNCHRONOUS_WAIT_ENABLE
         NOR_WRITEBURST CONTINUOUSCLOCK_FEATURE.

Definition board_handle : NOR_HandleTypeDef :=
  mkHandle FMC_NORSRAM_DEVICE FMC_NORSRAM_EXTENDED_DEVICE board_Init.

(** The [i]-th program command of a write that starts at offset [addr] with
    data pointer [pData]: the address is [base + addr + 2 * i] in 32-bit
    arithmetic, the data pointer is that of the [i]-th word. *)
Definition program_at (addr pData : Z) (i : nat) : HAL_Call :=
  Call_HAL_NOR_Program (U32.wrap (NOR_DEVICE_ADDR + addr + 2 * Z.of_nat i))
                       (pData + Z.of_nat i).

(** The same command when the sum is taken in the integers. *)
Definition program_at_exact (addr pData : Z) (i : nat) : HAL_Call :=
  Call_HAL_NOR_Program (NOR_DEVICE_ADDR + addr + 2 * Z.of_nat i)
                       (pData + Z.of_nat i).

(** The [i]-th program-then-poll cycle, whose poll returned [r]. *)
Definition cycle (addr pData : Z) (r : HAL_NOR_StatusTypeDef) (i : nat)
  : list HAL_Call :=
  [program_at addr pData i;
   Call_HAL_NOR_GetStatus NOR_DEVICE_ADDR PROGRAM_TIMEOUT r].

Definition cycle_exact (addr pData : Z) (r : HAL_NOR_StatusTypeDef) (i : nat)
  : list HAL_Call :=
  [program_at_exact addr pData i;
   Call_HAL_NOR_GetStatus NOR_DEVICE_ADDR PROGRAM_TIMEOUT r].

(** Consecutive cycles number [i], [i + 1], ... with poll results [rs]. *)
Fixpoint cycles_from (i : nat) (addr pData : Z)
    (rs : list HAL_NOR_StatusTypeDef) : list HAL_Call :=
  match rs with
  | [] => []
  | r :: rs' => cycle addr pData r i ++ cycles_from (S i) addr pData rs'
  end.

(** Cycles written with the address stepping of the loop itself. *)
Fixpoint cycles_step (a p : Z) (rs : list HAL_NOR_StatusTypeDef)
  : list HAL_Call :=
  match rs with
  | [] => []
  | r :: rs' =>
      Call_HAL_NOR_Program (U32.add NOR_DEVICE_ADDR a) p
      :: Call_HAL_NOR_GetStatus NOR_DEVICE_ADDR PROGRAM_TIMEOUT r
      :: cycles_step (U32.add a 2) (p + 1) rs'
  end.

End Reference.

(** The configuration record: bus timing and device mode flags. *)
Definition config {W} (s : State W)
  : FMC_NORSRAM_TimingTypeDef * FMC_NORSRAM_InitTypeDef :=
  (Timing s, Init (norHandle s)).

(** ** A simulated board

    A small executable controller on which the driver can be run on concrete
    inputs. *)

Module Sim.

Record Board : Type := mkBoard {
  flash : list (Z * Z);        (* programmed (address, half-word) pairs *)
  ram : list Z;                (* the caller's half-words *)
  good_polls : nat;            (* status queries that will still succeed *)
  pins : list GPIO_PinState;   (* coming levels of the ready/busy pin *)
  open_ok : bool               (* whether opening the device succeeds *)
}.

Definition word_at (b : Board) (p : Z) : Z := nth (Z.to_nat p) (ram b) 65535.

Definition sim_program_word (a p : Z) (b : Board) : Board :=
  mkBoard ((a, word_at b p) :: flash b) (ram b) (good_polls b) (pins b)
          (open_ok b).

Definition sim_program_buffer (a p n : Z) (b : Board) : Board :=
  mkBoard (map (fun i => (a + 2 * Z.of_nat i, word_at b (p + Z.of_nat i)))
               (seq 0 (Z.to_nat n)) ++ flash b)
          (ram b) (good_polls b) (pins b) (open_ok b).

Definition sim_erase (b : Board) : Board :=
  mkBoard [] (ram b) (good_polls b) (pins b) (open_ok b).

Definition sim_get_status (b : Board) : HAL_NOR_StatusTypeDef * Board :=
  match good_polls b with
  | O => (NOR_TIMEOUT, b)
  | S n => (NOR_SUCCESS, mkBoard (flash b) (ram b) n (pins b) (open_ok b))
  end.

Definition sim_read_pin (b : Board) : GPIO_PinState * Board :=
  match pins b with
  | [] => (GPIO_PIN_SET, b)
  | x :: rest =>
      (x, mkBoard (flash b) (ram b) (good_polls b) rest (open_ok b))
  end.

Definition controller : Controller Board := {|
  board_setup := fun b => b;
  open := fun _ _ _ b => (if open_ok b then HAL_OK else HAL_ERROR, b);
  bulk_read := fun _ _ _ _ b => (HAL_OK, b);
  return_to_read_mode := fun _ b => b;
  program_word := fun _ a p b => sim_program_word a p b;
  get_status := fun _ _ _ b => sim_get_status b;
  program_buffer := fun _ a p n b => sim_program_buffer a p n b;
  erase_block := fun _ _ _ b => sim_erase b;
  erase_chip := fun _ _ b => sim_erase b;
  read_id := fun _ _ b => (HAL_OK, b);
  read_pin := fun _ _ b => sim_read_pin b
|}.

(** Sample values for the header macros: the region of the first bank of the
    external memory controller starts at 0x60000000. *)
Definition header : NorHeader := {|
  NOR_DEVICE_ADDR := 1610612736;
  PROGRAM_TIMEOUT := 17408;
  BLOCKERASE_TIMEOUT := 10485760;
  CHIPERASE_TIMEOUT := 805306368;
  NOR_MEMORY_WIDTH := 16;
  NOR_BURSTACCESS := 0;
  NOR_WRITEBURST := 0;
  CONTINUOUSCLOCK_FEATURE := 0;
  NOR_READY_BUSY_GPIO := 1073876992;
  NOR_READY_BUSY_PIN := 64;
  NOR_READY_STATE := GPIO_PIN_SET;
  NOR_BUSY_STATE := GPIO_PIN_RESET;
  FMC_NORSRAM_DEVICE := 2684354560;
  FMC_NORSRAM_EXTENDED_DEVICE := 2684354820;
  FMC_ACCESS_MODE_A := 0;
  FMC_NORSRAM_BANK1 := 0;
  FMC_DATA_ADDRESS_MUX_DISABLE := 0;
  FMC_MEMORY_TYPE_NOR := 8;
  FMC_WAIT_SIGNAL_POLARITY_LOW := 0;
  FMC_WRAP_MODE_DISABLE := 0;
  FMC_WAIT_TIMING_BEFORE_WS := 0;
  FMC_WRITE_OPERATION_ENABLE := 4096;
  FMC_WAIT_SIGNAL_ENABLE := 8192;
  FMC_EXTENDED_MODE_DISABLE := 0;
  FMC_ASYNCHRONOUS_WAIT_ENABLE := 32768
|}.

Definition zero_Timing : FMC_NORSRAM_TimingTypeDef := mkTiming 0 0 0 0 0 0 0.

Definition zero_handle : NOR_HandleTypeDef :=
  mkHandle 0 0 (mkInit 0 0 0 0 0 0 0 0 0 0 0 0 0 0).

(** A board whose first [n] status queries succeed and whose ready/busy pin
    goes through [ps]; the driver's variables are zero, as C leaves statics
    at program start. *)
Definition start (n : nat) (ps : list GPIO_PinState) : State Board :=
  mkState zero_handle zero_Timing (mkBoard [] [10; 20; 30; 40; 50] n ps true).

End Sim.

(** ** The outside world along a word-at-a-time write *)

Section Write_worlds.

Context {hdr : NorHeader} {W : Type} {ctl : Controller W}.

(** What the controller does in cycle [i] (from 0) of a write at offset
    [addr] from data pointer [pData], on the world [w] the earlier cycles
    left: it programs the [i]-th word and then answers the status poll. *)
Definition cycle_world (h : NOR_HandleTypeDef) (addr pData : Z) (i : nat)
    (w : W) : HAL_NOR_StatusTypeDef * W :=
  get_status h NOR_DEVICE_ADDR PROGRAM_TIMEOUT
    (program_word h (U32.wrap (NOR_DEVICE_ADDR + addr + 2 * Z.of_nat i))
                  (pData + Z.of_nat i) w).

(** The world after the first [k] cycles. *)
Fixpoint world_after (h : NOR_HandleTypeDef) (addr pData : Z) (k : nat)
    (w : W) : W :=
  match k with
  | O => w
  | S k' => snd (cycle_world h addr pData k' (world_after h addr pData k' w))
  end.

(** What the controller answers to the status poll of cycle [i]. *)
Definition poll_of_cycle (h : NOR_HandleTypeDef) (addr pData : Z) (i : nat)
    (w : W) : HAL_NOR_StatusTypeDef :=
  fst (cycle_world h addr pData i (world_after h addr pData i w)).

End Write_worlds.

(** ** Further observations of a call log *)


Definition is_return_to_read_mode (c : HAL_Call) : bool :=
  match c with Call_HAL_NOR_ReturnToReadMode => true | _ => false end.

Definition is_erase (c : HAL_Call) : bool :=
  match c with
  | Call_HAL_NOR_Erase_Block _ _ | Call_HAL_NOR_Erase_Chip _ => true
  | _ => false
  end.

Definition count_calls (f : HAL_Call -> bool) (l : list HAL_Call) : nat :=
  length (filter f l).

(** A call the public functions may make: no pin read, and a status poll
    only at the base address with one of the three fixed budgets. *)
Definition driver_call {hdr : NorHeader} (c : HAL_Call) : bool :=
  match c with
  | Call_HAL_NOR_GetStatus a t _ =>
      (a =? NOR_DEVICE_ADDR)
      && ((t =? PROGRAM_TIMEOUT) || (t =? BLOCKERASE_TIMEOUT)
          || (t =? CHIPERASE_TIMEOUT))
  | Call_HAL_GPIO_ReadPin _ _ _ => false
  | _ => true
  end.

(** ** Callers of the driver

    A caller is any finite program over the public functions that may choose
    its next call from the statuses it got back.  It is used to state what
    holds along every sequence of calls. *)

Inductive Op : Type :=
| Op_Init
| Op_ReadData (uwStartAddress pData uwDataSize : Z)
| Op_ReturnToReadMode
| Op_WriteData (uwStartAddress pData uwDataSize : Z)
| Op_ProgramData (uwStartAddress pData uwDataSize : Z)
| Op_Erase_Block (BlockAddress : Z)
| Op_Erase_Chip
| Op_Read_ID (pNOR_ID : Z).

(** A caller: done, or one call and a continuation that receives the status
    ([None] for the function that returns nothing). *)
Inductive Caller : Type :=
| Done
| Call (o : Op) (k : option NOR_Status -> Caller).

Definition is_Op_ReturnToReadMode (o : Op) : bool :=
  match o with Op_ReturnToReadMode => true | _ => false end.

Definition is_Op_Erase (o : Op) : bool :=
  match o with Op_Erase_Block _ | Op_Erase_Chip => true | _ => false end.

Definition is_Op_Init (o : Op) : bool :=
  match o with Op_Init => true | _ => false end.

Section Callers.

Context {hdr : NorHeader} {W : Type} {ctl : Controller W}.

Definition with_status (m : M W NOR_Status) : M W (option NOR_Status) :=
  st <- m ;; ret (Some st).

Definition run_op (o : Op) : M W (option NOR_Status) :=
  match o with
  | Op_Init => with_status BSP_NOR_Init
  | Op_ReadData a p n => with_status (BSP_NOR_ReadData a p n)
  | Op_ReturnToReadMode => BSP_NOR_ReturnToReadMode ;; ret None
  | Op_WriteData a p n => with_status (BSP_NOR_WriteData a p n)
  | Op_ProgramData a p n => with_status (BSP_NOR_ProgramData a p n)
  | Op_Erase_Block b => with_status (BSP_NOR_Erase_Block b)
  | Op_Erase_Chip => with_status BSP_NOR_Erase_Chip
  | Op_Read_ID p => with_status (BSP_NOR_Read_ID p)
  end.

(** What a caller does after the first part of a write made in two parts:
    it goes on with the second part if the first returned OK. *)
Definition then_write (a p : Z) (m : nat) (st : NOR_Status) : M W NOR_Status :=
  match st with
  | NOR_STATUS_OK => BSP_NOR_WriteData a p (Z.of_nat m)
  | NOR_STATUS_ERROR => ret NOR_STATUS_ERROR
  end.

(** Running a caller; the result is the list of the calls it made. *)
Fixpoint run_caller (c : Caller) : M W (list Op) :=
  match c with
  | Done => ret []
  | Call o k =>
      st <- run_op o ;;
      rest <- run_caller (k st) ;;
      ret (o :: rest)
  end.

End Callers.

(** * Properties *)

(** ** Running a sequence of two computations *)

Section Monad_facts.

Context {W : Type}.

Lemma calls_bind {A B} (m : M W A) (k : A -> M W B) (s : State W) :
  calls (bind m k) s = calls m s ++ calls (k (result m s)) (final m s).
Proof.
  unfold calls, result, final, bind.
  destruct (m s) as [[a s1] l1]; simpl.
  destruct (k a s1) as [[b s2] l2]; reflexivity.
Qed.

Lemma result_bind {A B} (m : M W A) (k : A -> M W B) (s : State W) :
  result (bind m k) s = result (k (result m s)) (final m s).
Proof.
  unfold result, final, bind.
  destruct (m s) as [[a s1] l1]; simpl.
  destruct (k a s1) as [[b s2] l2]; reflexivity.
Qed.

Lemma final_bind {A B} (m : M W A) (k : A -> M W B) (s : State W) :
  final (bind m k) s = final (k (result m s)) (final m s).
Proof.
  unfold result, final, bind.
  destruct (m s) as [[a s1] l1]; simpl.
  destruct (k a s1) as [[b s2] l2]; reflexivity.
Qed.

Lemma calls_ret {A} (a : A) (s : State W) : calls (ret a) s = [].
Proof. reflexivity. Qed.

Lemma result_ret {A} (a : A) (s : State W) : result (ret a) s = a.
Proof. reflexivity. Qed.

Lemma final_ret {A} (a : A) (s : State W) : final (ret a) s = s.
Proof. reflexivity. Qed.

End Monad_facts.

(** ** Status codes *)

Lemma succeeded_true (r : HAL_NOR_StatusTypeDef) :
  succeeded r = true <-> r = NOR_SUCCESS.
Proof. destruct r; simpl; split; intro H; congruence. Qed.

Lemma forallb_succeeded (rs : list HAL_NOR_StatusTypeDef) :
  forallb succeeded rs = true -> rs = repeat NOR_SUCCESS (length rs).
Proof.
  induction rs as [|r rs IH]; simpl; intro H; [reflexivity|].
  apply andb_true_iff in H as [Hr Hrs].
  apply succeeded_true in Hr. subst r. f_equal. auto.
Qed.

Lemma HAL_Status_eqb_OK (r : HAL_StatusTypeDef) :
  HAL_Status_eqb r HAL_OK = true <-> r = HAL_OK.
Proof. destruct r; simpl; split; intro H; congruence. Qed.

(** ** 32-bit address arithmetic *)

Lemma wrap_wrap (x : Z) : U32.wrap (U32.wrap x) = U32.wrap x.
Proof. unfold U32.wrap. apply Zmod_mod. Qed.

Lemma wrap_add_l (a b : Z) : U32.wrap (a + U32.wrap b) = U32.wrap (a + b).
Proof. unfold U32.wrap. apply Zplus_mod_idemp_r. Qed.

Lemma wrap_congr_add (a b c : Z) :
  U32.wrap a = U32.wrap b -> U32.wrap (c + a) = U32.wrap (c + b).
Proof.
  intro H. rewrite <- (wrap_add_l c a), <- (wrap_add_l c b), H. reflexivity.
Qed.

Lemma wrap_small (x : Z) : 0 <= x < U32.modulus -> U32.wrap x = x.
Proof. intro H. unfold U32.wrap. apply Z.mod_small. exact H. Qed.

(** ** Call logs made of program-then-poll cycles *)

Section Cycle_facts.

Context {hdr : NorHeader}.

Lemma cycles_step_from (addr pData : Z) (rs : list HAL_NOR_StatusTypeDef) :
  forall (i : nat) (a : Z),
    U32.wrap a = U32.wrap (addr + 2 * Z.of_nat i) ->
    cycles_step a (pData + Z.of_nat i) rs = cycles_from i addr pData rs.
Proof.
  induction rs as [|r rs IH]; intros i a Ha; simpl; [reflexivity|].
  unfold program_at. f_equal.
  - f_equal. unfold U32.add.
    rewrite <- Z.add_assoc. apply wrap_congr_add. exact Ha.
  - f_equal.
    replace (pData + Z.of_nat i + 1) with (pData + Z.of_nat (S i)) by lia.
    apply IH. unfold U32.add. rewrite wrap_wrap.
    rewrite (Z.add_comm a 2).
    rewrite (wrap_congr_add a (addr + 2 * Z.of_nat i) 2 Ha).
    replace (2 + (addr + 2 * Z.of_nat i)) with (addr + 2 * Z.of_nat (S i))
      by lia.
    reflexivity.
Qed.

Lemma cycles_step_from_0 (addr pData : Z) (rs : list HAL_NOR_StatusTypeDef) :
  cycles_step addr pData rs = cycles_from 0 addr pData rs.
Proof.
  rewrite <- (cycles_step_from addr pData rs 0%nat addr).
  - f_equal. simpl. lia.
  - f_equal. simpl. lia.
Qed.

Lemma polls_cycles_from (addr pData : Z) (rs : list HAL_NOR_StatusTypeDef) :
  forall i, polls (cycles_from i addr pData rs) = rs.
Proof.
  induction rs as [|r rs IH]; intro i; simpl; [reflexivity|].
  f_equal. apply IH.
Qed.

Lemma programs_cycles_from (addr pData : Z) (rs : list HAL_NOR_StatusTypeDef) :
  forall i,
    programs (cycles_from i addr pData rs)
    = map (program_at addr pData) (seq i (length rs)).
Proof.
  induction rs as [|r rs IH]; intro i; simpl; [reflexivity|].
  f_equal. apply IH.
Qed.

Lemma cycles_from_repeat (addr pData : Z) (r : HAL_NOR_StatusTypeDef) (n : nat) :
  forall i,
    cycles_from i addr pData (repeat r n)
    = flat_map (cycle addr pData r) (seq i n).
Proof.
  induction n as [|n IH]; intro i; simpl; [reflexivity|].
  f_equal. f_equal. apply IH.
Qed.

Lemma cycles_from_app (addr pData : Z) (rs1 rs2 : list HAL_NOR_StatusTypeDef) :
  forall i,
    cycles_from i addr pData (rs1 ++ rs2)
    = cycles_from i addr pData rs1
      ++ cycles_from (i + length rs1) addr pData rs2.
Proof.
  induction rs1 as [|r rs1 IH]; intro i; simpl.
  - rewrite Nat.add_0_r. reflexivity.
  - f_equal. f_equal. rewrite IH. f_equal. f_equal. lia.
Qed.

Lemma cycles_from_only_program_poll (addr pData : Z)
    (rs : list HAL_NOR_StatusTypeDef) :
  forall i,
    forallb (fun c => is_program c || is_poll c)
            (cycles_from i addr pData rs) = true.
Proof.
  induction rs as [|r rs IH]; intro i; simpl; [reflexivity|]. apply IH.
Qed.

Lemma cycle_no_overflow (addr pData : Z) (r : HAL_NOR_StatusTypeDef) (n : nat) :
  0 <= NOR_DEVICE_ADDR -> 0 <= addr ->
  NOR_DEVICE_ADDR + addr + 2 * Z.of_nat n <= U32.modulus ->
  flat_map (cycle addr pData r) (seq 0 n)
  = flat_map (cycle_exact addr pData r) (seq 0 n).
Proof.
  intros Hb Ha Hn. rewrite !flat_map_concat_map. f_equal.
  apply map_ext_in. intros i Hi.
  apply in_seq in Hi. unfold cycle, cycle_exact, program_at, program_at_exact.
  rewrite wrap_small; [reflexivity|].
  unfold U32.modulus in *. change (2 ^ 32) with 4294967296 in *. lia.
Qed.

End Cycle_facts.

(** ** The word-programming loop *)

Section WriteData_facts.

Context {hdr : NorHeader} {W : Type} {ctl : Controller W}.

(** One turn of the loop: the program command, the poll, and either the rest
    of the loop or the early return. *)
Lemma WriteData_loop_S (n : nat) (a p : Z) (s : State W) :
  let s1 := final (HAL_NOR_Program (U32.add NOR_DEVICE_ADDR a) p) s in
  let r := result (HAL_NOR_GetStatus NOR_DEVICE_ADDR PROGRAM_TIMEOUT) s1 in
  let s2 := final (HAL_NOR_GetStatus NOR_DEVICE_ADDR PROGRAM_TIMEOUT) s1 in
  calls (WriteData_loop (S n) a p) s
  = Call_HAL_NOR_Program (U32.add NOR_DEVICE_ADDR a) p
    :: Call_HAL_NOR_GetStatus NOR_DEVICE_ADDR PROGRAM_TIMEOUT r
    :: (if succeeded r
        then calls (WriteData_loop n (U32.add a 2) (p + 1)) s2
        else [])
  /\ result (WriteData_loop (S n) a p) s
     = (if succeeded r
        then result (WriteData_loop n (U32.add a 2) (p + 1)) s2
        else NOR_STATUS_ERROR)
  /\ final (WriteData_loop (S n) a p) s
     = (if succeeded r
        then final (WriteData_loop n (U32.add a 2) (p + 1)) s2
        else s2).
Proof.
  cbv zeta. simpl WriteData_loop.
  rewrite !calls_bind, !result_bind, !final_bind.
  set (s1 := final (HAL_NOR_Program (U32.add NOR_DEVICE_ADDR a) p) s).
  assert (Hq : calls (HAL_NOR_GetStatus NOR_DEVICE_ADDR PROGRAM_TIMEOUT) s1
               = [Call_HAL_NOR_GetStatus NOR_DEVICE_ADDR PROGRAM_TIMEOUT
                    (result (HAL_NOR_GetStatus NOR_DEVICE_ADDR PROGRAM_TIMEOUT)
                            s1)]).
  { unfold calls, result, HAL_NOR_GetStatus, query.
    destruct (get_status (norHandle s1) NOR_DEVICE_ADDR PROGRAM_TIMEOUT
                         (hw s1)); reflexivity. }
  rewrite Hq. unfold succeeded.
  destruct (NOR_Status_eqb
              (result (HAL_NOR_GetStatus NOR_DEVICE_ADDR PROGRAM_TIMEOUT) s1)
              NOR_SUCCESS); simpl; repeat split; reflexivity.
Qed.

(** The loop makes a run of program-then-poll cycles; either all [n] polls
    succeed and the result is OK, or the last poll made is the first failed
    one and the result is ERROR. *)
Lemma WriteData_loop_spec (n : nat) :
  forall (a p : Z) (s : State W),
  exists rs : list HAL_NOR_StatusTypeDef,
    calls (WriteData_loop n a p) s = cycles_step a p rs
    /\ (length rs <= n)%nat
    /\ ((result (WriteData_loop n a p) s = NOR_STATUS_OK
         /\ length rs = n /\ forallb succeeded rs = true)
        \/ (result (WriteData_loop n a p) s = NOR_STATUS_ERROR
            /\ exists rs0 r, rs = rs0 ++ [r]
                 /\ forallb succeeded rs0 = true /\ succeeded r = false)).
Proof.
  induction n as [|n IH]; intros a p s.
  - exists []. simpl. repeat split; auto.
  - destruct (WriteData_loop_S n a p s) as (Hc & Hr & _).
    cbv zeta in Hc, Hr.
    set (s1 := final (HAL_NOR_Program (U32.add NOR_DEVICE_ADDR a) p) s) in *.
    set (r := result (HAL_NOR_GetStatus NOR_DEVICE_ADDR PROGRAM_TIMEOUT) s1)
      in *.
    set (s2 := final (HAL_NOR_GetStatus NOR_DEVICE_ADDR PROGRAM_TIMEOUT) s1)
      in *.
    rewrite Hc, Hr. destruct (succeeded r) eqn:Er.
    + destruct (IH (U32.add a 2) (p + 1) s2) as (rs & Hcs & Hlen & Hres).
      exists (r :: rs). rewrite Hcs. simpl. split; [reflexivity|].
      split; [lia|]. rewrite Er. simpl.
      destruct Hres as [(H1 & H2 & H3) | (H1 & rs0 & r' & H2 & H3 & H4)].
      * left. repeat split; auto.
      * right. split; [exact H1|]. exists (r :: rs0), r'. subst rs. simpl.
        rewrite Er. auto.
    + exists [r]. simpl. split; [reflexivity|]. split; [lia|].
      right. split; [reflexivity|]. exists [], r. auto.
Qed.

(** The same for the public function, with the cycles numbered from 0. *)
Lemma WriteData_spec (addr pData : Z) (N : nat) (s : State W) :
  exists rs : list HAL_NOR_StatusTypeDef,
    calls (BSP_NOR_WriteData addr pData (Z.of_nat N)) s
    = cycles_from 0 addr pData rs
    /\ (length rs <= N)%nat
    /\ ((result (BSP_NOR_WriteData addr pData (Z.of_nat N)) s = NOR_STATUS_OK
         /\ length rs = N /\ forallb succeeded rs = true)
        \/ (result (BSP_NOR_WriteData addr pData (Z.of_nat N)) s
            = NOR_STATUS_ERROR
            /\ exists rs0 r, rs = rs0 ++ [r]
                 /\ forallb succeeded rs0 = true /\ succeeded r = false)).
Proof.
  unfold BSP_NOR_WriteData. rewrite Nat2Z.id.
  destruct (WriteData_loop_spec N addr pData s) as (rs & Hc & Hrest).
  exists rs. rewrite Hc, cycles_step_from_0. split; [reflexivity|exact Hrest].
Qed.

End WriteData_facts.

Lemma forallb_app_last {A} (f : A -> bool) (l : list A) (x : A) :
  forallb f (l ++ [x]) = forallb f l && f x.
Proof. rewrite forallb_app. simpl. rewrite andb_true_r. reflexivity. Qed.


(** ** The word-programming loop and the controller *)

Section WriteData_world_facts.

Context {hdr : NorHeader} {W : Type} {ctl : Controller W}.

(** One turn of the loop as a run: the controller programs the word and
    answers the poll; the answer decides between the rest of the loop and
    the early return. *)
Lemma WriteData_loop_step (n : nat) (a p : Z) (s : State W) :
  WriteData_loop (S n) a p s
  = (let h := norHandle s in
     let c := get_status h NOR_DEVICE_ADDR PROGRAM_TIMEOUT
                (program_word h (U32.add NOR_DEVICE_ADDR a) p (hw s)) in
     let s2 := mkState h (Timing s) (snd c) in
     if succeeded (fst c)
     then let '(b, s3, l) := WriteData_loop n (U32.add a 2) (p + 1) s2 in
          (b, s3,
           Call_HAL_NOR_Program (U32.add NOR_DEVICE_ADDR a) p
           :: Call_HAL_NOR_GetStatus NOR_DEVICE_ADDR PROGRAM_TIMEOUT (fst c)
           :: l)
     else (NOR_STATUS_ERROR, s2,
           [Call_HAL_NOR_Program (U32.add NOR_DEVICE_ADDR a) p;
            Call_HAL_NOR_GetStatus NOR_DEVICE_ADDR PROGRAM_TIMEOUT (fst c)])).
Proof.
  cbv zeta. change (WriteData_loop (S n) a p) with
    (HAL_NOR_Program (U32.add NOR_DEVICE_ADDR a) p ;;
     st <- HAL_NOR_GetStatus NOR_DEVICE_ADDR PROGRAM_TIMEOUT ;;
     if negb (NOR_Status_eqb st NOR_SUCCESS)
     then ret NOR_STATUS_ERROR
     else WriteData_loop n (U32.add a 2) (p + 1)).
  unfold bind, HAL_NOR_Program, effect, HAL_NOR_GetStatus, query, succeeded.
  cbn [norHandle Timing hw].
  destruct (get_status (norHandle s) NOR_DEVICE_ADDR PROGRAM_TIMEOUT
              (program_word (norHandle s) (U32.add NOR_DEVICE_ADDR a) p
                            (hw s))) as [r w].
  cbn [fst snd].
  destruct (NOR_Status_eqb r NOR_SUCCESS); cbn [negb].
  - destruct (WriteData_loop n (U32.add a 2) (p + 1)
                (mkState (norHandle s) (Timing s) w)) as [[b s3] l].
    reflexivity.
  - reflexivity.
Qed.

(** The loop entered at cycle [i] of a write that began on world [w0]:
    if the controller answers success to the [n] polls from cycle [i] on,
    the loop returns OK after these [n] cycles; if its first other answer
    comes [m < n] cycles later, the loop returns ERROR right after that
    poll.  In both cases the final world is the one the cycles made leave. *)
Lemma WriteData_loop_from (addr pData : Z) (n : nat) :
  forall (i : nat) (a : Z) (s : State W) (w0 : W),
    U32.wrap a = U32.wrap (addr + 2 * Z.of_nat i) ->
    hw s = world_after (norHandle s) addr pData i w0 ->
    (forallb (fun j => succeeded (poll_of_cycle (norHandle s) addr pData j w0))
             (seq i n) = true ->
     WriteData_loop n a (pData + Z.of_nat i) s
     = (NOR_STATUS_OK,
        mkState (norHandle s) (Timing s)
                (world_after (norHandle s) addr pData (i + n) w0),
        flat_map (cycle addr pData NOR_SUCCESS) (seq i n)))
    /\ (forall m : nat,
           (m < n)%nat ->
           forallb (fun j =>
                      succeeded (poll_of_cycle (norHandle s) addr pData j w0))
                   (seq i m) = true ->
           succeeded (poll_of_cycle (norHandle s) addr pData (i + m) w0)
           = false ->
           WriteData_loop n a (pData + Z.of_nat i) s
           = (NOR_STATUS_ERROR,
              mkState (norHandle s) (Timing s)
                      (world_after (norHandle s) addr pData (S (i + m)) w0),
              flat_map (cycle addr pData NOR_SUCCESS) (seq i m)
              ++ cycle addr pData
                       (poll_of_cycle (norHandle s) addr pData (i + m) w0)
                       (i + m))).
Proof.
  induction n as [|n IH]; intros i a s w0 Ha Hw.
  - split; [|intros m Hm; lia].
    intros _. rewrite Nat.add_0_r, <- Hw. destruct s; reflexivity.
  - assert (Eaddr : U32.add NOR_DEVICE_ADDR a
                    = U32.wrap (NOR_DEVICE_ADDR + addr + 2 * Z.of_nat i)).
    { unfold U32.add. rewrite <- Z.add_assoc. apply wrap_congr_add.
      exact Ha. }
    assert (Enext : U32.wrap (U32.add a 2)
                    = U32.wrap (addr + 2 * Z.of_nat (S i))).
    { unfold U32.add. rewrite wrap_wrap, (Z.add_comm a 2).
      rewrite (wrap_congr_add a (addr + 2 * Z.of_nat i) 2 Ha).
      replace (2 + (addr + 2 * Z.of_nat i)) with (addr + 2 * Z.of_nat (S i))
        by lia.
      reflexivity. }
    assert (Ec : get_status (norHandle s) NOR_DEVICE_ADDR PROGRAM_TIMEOUT
                   (program_word (norHandle s) (U32.add NOR_DEVICE_ADDR a)
                                 (pData + Z.of_nat i) (hw s))
                 = cycle_world (norHandle s) addr pData i
                     (world_after (norHandle s) addr pData i w0)).
    { rewrite Eaddr, Hw. reflexivity. }
    rewrite WriteData_loop_step. cbv zeta. rewrite Ec.
    fold (poll_of_cycle (norHandle s) addr pData i w0).
    change (snd (cycle_world (norHandle s) addr pData i
                   (world_after (norHandle s) addr pData i w0)))
      with (world_after (norHandle s) addr pData (S i) w0).
    replace (pData + Z.of_nat i + 1) with (pData + Z.of_nat (S i)) by lia.
    set (s2 := mkState (norHandle s) (Timing s)
                 (world_after (norHandle s) addr pData (S i) w0)).
    destruct (IH (S i) (U32.add a 2) s2 w0 Enext eq_refl) as [IHok IHerr].
    cbn [norHandle Timing hw s2] in IHok, IHerr.
    split.
    + intro Hall. cbn [seq forallb] in Hall.
      apply andb_true_iff in Hall as [Hi Hrest].
      rewrite Hi, (IHok Hrest).
      apply succeeded_true in Hi. rewrite Hi. rewrite Eaddr.
      replace (S i + n)%nat with (i + S n)%nat by lia. reflexivity.
    + intros m Hm Hall Hfail. destruct m as [|m].
      * rewrite Nat.add_0_r in Hfail |- *. rewrite Hfail, Eaddr. reflexivity.
      * cbn [seq forallb] in Hall.
        apply andb_true_iff in Hall as [Hi Hrest].
        replace (i + S m)%nat with (S i + m)%nat in Hfail |- * by lia.
        rewrite Hi, (IHerr m (proj2 (Nat.succ_lt_mono m n) Hm) Hrest Hfail).
        apply succeeded_true in Hi. rewrite Hi. rewrite Eaddr. reflexivity.
Qed.

(** The same for the public function. *)
Lemma WriteData_run (s : State W) (addr pData : Z) (N : nat) :
  (forallb (fun j => succeeded (poll_of_cycle (norHandle s) addr pData j (hw s)))
           (seq 0 N) = true ->
   BSP_NOR_WriteData addr pData (Z.of_nat N) s
   = (NOR_STATUS_OK,
      mkState (norHandle s) (Timing s)
              (world_after (norHandle s) addr pData N (hw s)),
      flat_map (cycle addr pData NOR_SUCCESS) (seq 0 N)))
  /\ (forall m : nat,
         (m < N)%nat ->
         forallb (fun j =>
                    succeeded (poll_of_cycle (norHandle s) addr pData j (hw s)))
                 (seq 0 m) = true ->
         succeeded (poll_of_cycle (norHandle s) addr pData m (hw s)) = false ->
         BSP_NOR_WriteData addr pData (Z.of_nat N) s
         = (NOR_STATUS_ERROR,
            mkState (norHandle s) (Timing s)
                    (world_after (norHandle s) addr pData (S m) (hw s)),
            flat_map (cycle addr pData NOR_SUCCESS) (seq 0 m)
            ++ cycle addr pData
                     (poll_of_cycle (norHandle s) addr pData m (hw s)) m)).
Proof.
  assert (Ha : U32.wrap addr = U32.wrap (addr + 2 * Z.of_nat 0))
    by (rewrite Z.add_0_r; reflexivity).
  destruct (WriteData_loop_from addr pData N 0 addr s (hw s) Ha eq_refl)
    as [Hok Herr].
  unfold BSP_NOR_WriteData. rewrite Nat2Z.id.
  change (Z.of_nat 0) with 0 in Hok, Herr. rewrite Z.add_0_r in Hok, Herr.
  split; [exact Hok | exact Herr].
Qed.

(** Among the first [N] cycles either every poll is answered with success or
    there is a first one that is not. *)
Lemma first_failure (f : nat -> bool) (N : nat) :
  forallb f (seq 0 N) = true
  \/ exists m, (m < N)%nat /\ forallb f (seq 0 m) = true /\ f m = false.
Proof.
  induction N as [|N IH]; [left; reflexivity|].
  destruct IH as [Hall | (m & Hm & Hbefore & Hfail)].
  - destruct (f N) eqn:EN.
    + left. rewrite seq_S, forallb_app, Hall. simpl. rewrite EN. reflexivity.
    + right. exists N. auto.
  - right. exists m. auto.
Qed.

Lemma forallb_seq_lt (f : nat -> bool) (n m : nat) :
  forallb f (seq 0 n) = true -> (m < n)%nat -> f m = true.
Proof.
  intros Hall Hm. rewrite forallb_forall in Hall. apply Hall.
  apply in_seq. lia.
Qed.

End WriteData_world_facts.

(** ** Word-at-a-time writes *)

Section WriteData_claims.

Context {hdr : NorHeader} {W : Type} {ctl : Controller W}.

(** C2: when the controller answers success to the status poll of each of
    the [N] cycles of a WriteData, the call returns OK; its call log is
    exactly [N] program-then-poll cycles, the [i]-th (from 0) programming
    the word at data pointer [pData + i] at address [base + addr + 2 * i]
    (a 32-bit sum) and then polling the status at the base address with the
    PROGRAM_TIMEOUT budget; and the outside world it leaves is the one these
    [N] program commands and polls, in this order, make the controller
    leave, the driver's variables being untouched.  When the sum does not
    leave the 32-bit range it is the sum in the integers. *)
Theorem WriteData_all_polls_succeed
    (s : State W) (addr pData : Z) (N : nat) :
  forallb (fun i => succeeded (poll_of_cycle (norHandle s) addr pData i (hw s)))
          (seq 0 N) = true ->
  result (BSP_NOR_WriteData addr pData (Z.of_nat N)) s = NOR_STATUS_OK
  /\ calls (BSP_NOR_WriteData addr pData (Z.of_nat N)) s
     = flat_map (cycle addr pData NOR_SUCCESS) (seq 0 N)
  /\ final (BSP_NOR_WriteData addr pData (Z.of_nat N)) s
     = mkState (norHandle s) (Timing s)
               (world_after (norHandle s) addr pData N (hw s))
  /\ (0 <= NOR_DEVICE_ADDR -> 0 <= addr ->
      NOR_DEVICE_ADDR + addr + 2 * Z.of_nat N <= U32.modulus ->
      calls (BSP_NOR_WriteData addr pData (Z.of_nat N)) s
      = flat_map (cycle_exact addr pData NOR_SUCCESS) (seq 0 N)).
Proof.
  intro Hall.
  pose proof (proj1 (WriteData_run s addr pData N) Hall) as Hrun.
  unfold result, calls, final. rewrite Hrun. cbn [fst snd].
  repeat split.
  intros Hb Ha Hs. apply cycle_no_overflow; assumption.
Qed.

(** C3: if the controller answers success to the polls of the first [k - 1]
    cycles of a WriteData for [N >= k] words and something else to the poll
    after the [k]-th programmed word, WriteData returns ERROR; its call log
    is the [k - 1] successful cycles followed by the failing cycle and
    nothing else, so that the failed poll is the last call, exactly [k]
    program commands were issued and no other kind of command (no erase,
    nothing that undoes the earlier words); and the outside world it leaves
    is the one the [k] program commands and [k] polls made the controller
    leave: the words programmed before the failure stay programmed.
    Conversely WriteData returns OK only if the controller answered success
    to the polls of all [N] cycles. *)
Theorem WriteData_fail_fast (s : State W) (addr pData : Z) (N : nat) :
  (forall k : nat,
      (1 <= k <= N)%nat ->
      forallb (fun i =>
                 succeeded (poll_of_cycle (norHandle s) addr pData i (hw s)))
              (seq 0 (k - 1)) = true ->
      succeeded (poll_of_cycle (norHandle s) addr pData (k - 1) (hw s))
      = false ->
      result (BSP_NOR_WriteData addr pData (Z.of_nat N)) s = NOR_STATUS_ERROR
      /\ calls (BSP_NOR_WriteData addr pData (Z.of_nat N)) s
         = flat_map (cycle addr pData NOR_SUCCESS) (seq 0 (k - 1))
           ++ cycle addr pData
                    (poll_of_cycle (norHandle s) addr pData (k - 1) (hw s))
                    (k - 1)
      /\ length (programs
                   (calls (BSP_NOR_WriteData addr pData (Z.of_nat N)) s)) = k
      /\ forallb (fun c => is_program c || is_poll c)
                 (calls (BSP_NOR_WriteData addr pData (Z.of_nat N)) s) = true
      /\ final (BSP_NOR_WriteData addr pData (Z.of_nat N)) s
         = mkState (norHandle s) (Timing s)
                   (world_after (norHandle s) addr pData k (hw s)))
  /\ (result (BSP_NOR_WriteData addr pData (Z.of_nat N)) s = NOR_STATUS_OK ->
      forallb (fun i =>
                 succeeded (poll_of_cycle (norHandle s) addr pData i (hw s)))
              (seq 0 N) = true
      /\ polls (calls (BSP_NOR_WriteData addr pData (Z.of_nat N)) s)
         = repeat NOR_SUCCESS N).
Proof.
  destruct (WriteData_run s addr pData N) as [Hok Herr]. split.
  - intros k Hk Hbefore Hfail.
    assert (Hm : (k - 1 < N)%nat) by lia.
    pose proof (Herr (k - 1)%nat Hm Hbefore Hfail) as Hrun.
    replace (S (k - 1)) with k in Hrun by lia.
    unfold result, calls, final. rewrite Hrun. cbn [fst snd].
    assert (Hlog : flat_map (cycle addr pData NOR_SUCCESS) (seq 0 (k - 1))
                   ++ cycle addr pData
                        (poll_of_cycle (norHandle s) addr pData (k - 1) (hw s))
                        (k - 1)
                   = cycles_from 0 addr pData
                       (repeat NOR_SUCCESS (k - 1)
                        ++ [poll_of_cycle (norHandle s) addr pData (k - 1)
                                          (hw s)])).
    { rewrite cycles_from_app, cycles_from_repeat, repeat_length.
      simpl. reflexivity. }
    split; [reflexivity|]. split; [reflexivity|].
    rewrite Hlog. split; [|split].
    + rewrite programs_cycles_from, length_map, length_seq, length_app,
        repeat_length. simpl. lia.
    + apply cycles_from_only_program_poll.
    + reflexivity.
  - intro Hres.
    destruct (first_failure
                (fun i => succeeded
                            (poll_of_cycle (norHandle s) addr pData i (hw s)))
                N) as [Hall | (m & Hm & Hbefore & Hfail)].
    + split; [exact Hall|].
      unfold calls. rewrite (Hok Hall). cbn [snd].
      rewrite <- cycles_from_repeat. apply polls_cycles_from.
    + unfold result in Hres. rewrite (Herr m Hm Hbefore Hfail) in Hres.
      discriminate Hres.
Qed.

(** C9: WriteData with a count of zero returns OK, makes no call to the
    controller (no program command, no status poll) and leaves the device
    and the driver's variables as they were. *)
Theorem WriteData_zero (s : State W) (addr pData : Z) :
  result (BSP_NOR_WriteData addr pData 0) s = NOR_STATUS_OK
  /\ calls (BSP_NOR_WriteData addr pData 0) s = []
  /\ final (BSP_NOR_WriteData addr pData 0) s = s.
Proof. repeat split. Qed.

End WriteData_claims.

(** ** Operations made of one command and one status poll *)

Section Command_claims.

Context {hdr : NorHeader} {W : Type} {ctl : Controller W}.

(** A command followed by one status poll whose result decides the status
    returned. *)
Lemma command_then_poll (f : NOR_HandleTypeDef -> W -> W) (c : HAL_Call)
    (Timeout : Z) (s : State W) :
  let op := (effect f c ;;
             st <- HAL_NOR_GetStatus NOR_DEVICE_ADDR Timeout ;;
             if negb (NOR_Status_eqb st NOR_SUCCESS)
             then ret NOR_STATUS_ERROR
             else ret NOR_STATUS_OK) in
  exists r : HAL_NOR_StatusTypeDef,
    calls op s = [c; Call_HAL_NOR_GetStatus NOR_DEVICE_ADDR Timeout r]
    /\ (result op s = NOR_STATUS_OK <-> r = NOR_SUCCESS).
Proof.
  cbv zeta. unfold calls, result, bind, effect, HAL_NOR_GetStatus, query.
  simpl.
  destruct (get_status (norHandle s) NOR_DEVICE_ADDR Timeout
                       (f (norHandle s) (hw s))) as [r w].
  exists r. destruct r; simpl; split; try reflexivity;
    split; intro H; try reflexivity; discriminate H.
Qed.

(** The same as a run: the poll is answered by the controller on the world
    the command left, and that answer decides the status returned. *)
Lemma command_then_poll_run (f : NOR_HandleTypeDef -> W -> W) (c : HAL_Call)
    (Timeout : Z) (s : State W) :
  (effect f c ;;
   st <- HAL_NOR_GetStatus NOR_DEVICE_ADDR Timeout ;;
   if negb (NOR_Status_eqb st NOR_SUCCESS)
   then ret NOR_STATUS_ERROR
   else ret NOR_STATUS_OK) s
  = (if succeeded
          (fst (get_status (norHandle s) NOR_DEVICE_ADDR Timeout
                           (f (norHandle s) (hw s))))
     then NOR_STATUS_OK else NOR_STATUS_ERROR,
     mkState (norHandle s) (Timing s)
             (snd (get_status (norHandle s) NOR_DEVICE_ADDR Timeout
                              (f (norHandle s) (hw s)))),
     [c;
      Call_HAL_NOR_GetStatus NOR_DEVICE_ADDR Timeout
        (fst (get_status (norHandle s) NOR_DEVICE_ADDR Timeout
                         (f (norHandle s) (hw s))))]).
Proof.
  unfold bind, effect, HAL_NOR_GetStatus, query, succeeded.
  cbn [norHandle Timing hw].
  destruct (get_status (norHandle s) NOR_DEVICE_ADDR Timeout
                       (f (norHandle s) (hw s))) as [r w].
  destruct r; reflexivity.
Qed.

Lemma status_of_poll (r : HAL_NOR_StatusTypeDef) :
  (if succeeded r then NOR_STATUS_OK else NOR_STATUS_ERROR) = NOR_STATUS_OK
  <-> r = NOR_SUCCESS.
Proof. destruct r; simpl; split; intro H; congruence. Qed.

(** C4: ProgramData makes exactly two calls: one buffered-program command
    for the whole block, which the controller carries out on the outside
    world, then one status poll with the PROGRAM_TIMEOUT budget, which the
    controller answers on the world the command left.  It returns OK if and
    only if that answer is success, and leaves the world the poll left. *)
Theorem ProgramData_one_command_one_poll
    (s : State W) (addr pData n : Z) :
  calls (BSP_NOR_ProgramData addr pData n) s
  = [Call_HAL_NOR_ProgramBuffer addr pData n;
     Call_HAL_NOR_GetStatus NOR_DEVICE_ADDR PROGRAM_TIMEOUT
       (fst (get_status (norHandle s) NOR_DEVICE_ADDR PROGRAM_TIMEOUT
               (program_buffer (norHandle s) addr pData n (hw s))))]
  /\ final (BSP_NOR_ProgramData addr pData n) s
     = mkState (norHandle s) (Timing s)
         (snd (get_status (norHandle s) NOR_DEVICE_ADDR PROGRAM_TIMEOUT
                 (program_buffer (norHandle s) addr pData n (hw s))))
  /\ (result (BSP_NOR_ProgramData addr pData n) s = NOR_STATUS_OK
      <-> fst (get_status (norHandle s) NOR_DEVICE_ADDR PROGRAM_TIMEOUT
                 (program_buffer (norHandle s) addr pData n (hw s)))
          = NOR_SUCCESS).
Proof.
  pose proof (command_then_poll_run
                (fun h => program_buffer h addr pData n)
                (Call_HAL_NOR_ProgramBuffer addr pData n) PROGRAM_TIMEOUT s)
    as Hrun.
  unfold calls, final, result, BSP_NOR_ProgramData, HAL_NOR_ProgramBuffer.
  rewrite Hrun. cbn [fst snd].
  split; [reflexivity|]. split; [reflexivity|]. apply status_of_poll.
Qed.

(** C6: EraseBlock makes exactly two calls: one block-erase command, which
    the controller carries out, then one status poll with the
    BLOCKERASE_TIMEOUT budget, answered on the world the command left;
    EraseChip likewise with one chip-erase command and the
    CHIPERASE_TIMEOUT budget.  Each returns OK if and only if the
    controller's answer to its poll is success, and leaves the world the
    poll left. *)
Theorem Erase_one_command_one_poll (s : State W) (BlockAddress : Z) :
  (calls (BSP_NOR_Erase_Block BlockAddress) s
   = [Call_HAL_NOR_Erase_Block BlockAddress NOR_DEVICE_ADDR;
      Call_HAL_NOR_GetStatus NOR_DEVICE_ADDR BLOCKERASE_TIMEOUT
        (fst (get_status (norHandle s) NOR_DEVICE_ADDR BLOCKERASE_TIMEOUT
                (erase_block (norHandle s) BlockAddress NOR_DEVICE_ADDR
                             (hw s))))]
   /\ final (BSP_NOR_Erase_Block BlockAddress) s
      = mkState (norHandle s) (Timing s)
          (snd (get_status (norHandle s) NOR_DEVICE_ADDR BLOCKERASE_TIMEOUT
                  (erase_block (norHandle s) BlockAddress NOR_DEVICE_ADDR
                               (hw s))))
   /\ (result (BSP_NOR_Erase_Block BlockAddress) s = NOR_STATUS_OK
       <-> fst (get_status (norHandle s) NOR_DEVICE_ADDR BLOCKERASE_TIMEOUT
                  (erase_block (norHandle s) BlockAddress NOR_DEVICE_ADDR
                               (hw s)))
           = NOR_SUCCESS))
  /\ (calls BSP_NOR_Erase_Chip s
      = [Call_HAL_NOR_Erase_Chip NOR_DEVICE_ADDR;
         Call_HAL_NOR_GetStatus NOR_DEVICE_ADDR CHIPERASE_TIMEOUT
           (fst (get_status (norHandle s) NOR_DEVICE_ADDR CHIPERASE_TIMEOUT
                   (erase_chip (norHandle s) NOR_DEVICE_ADDR (hw s))))]
      /\ final BSP_NOR_Erase_Chip s
         = mkState (norHandle s) (Timing s)
             (snd (get_status (norHandle s) NOR_DEVICE_ADDR CHIPERASE_TIMEOUT
                     (erase_chip (norHandle s) NOR_DEVICE_ADDR (hw s))))
      /\ (result BSP_NOR_Erase_Chip s = NOR_STATUS_OK
          <-> fst (get_status (norHandle s) NOR_DEVICE_ADDR CHIPERASE_TIMEOUT
                     (erase_chip (norHandle s) NOR_DEVICE_ADDR (hw s)))
              = NOR_SUCCESS)).
Proof.
  split.
  - pose proof (command_then_poll_run
                  (fun h => erase_block h BlockAddress NOR_DEVICE_ADDR)
                  (Call_HAL_NOR_Erase_Block BlockAddress NOR_DEVICE_ADDR)
                  BLOCKERASE_TIMEOUT s) as Hrun.
    unfold calls, final, result, BSP_NOR_Erase_Block, HAL_NOR_Erase_Block.
    rewrite Hrun. cbn [fst snd].
    split; [reflexivity|]. split; [reflexivity|]. apply status_of_poll.
  - pose proof (command_then_poll_run
                  (fun h => erase_chip h NOR_DEVICE_ADDR)
                  (Call_HAL_NOR_Erase_Chip NOR_DEVICE_ADDR)
                  CHIPERASE_TIMEOUT s) as Hrun.
    unfold calls, final, result, BSP_NOR_Erase_Chip, HAL_NOR_Erase_Chip.
    rewrite Hrun. cbn [fst snd].
    split; [reflexivity|]. split; [reflexivity|]. apply status_of_poll.
Qed.

(** C8: ReturnToReadMode returns no value and, from every state and after
    any preceding computation, makes exactly one call, the
    return-to-read-mode command, which the controller carries out on the
    outside world as it then is; no status poll follows, and the driver's
    variables are untouched. *)
Theorem ReturnToReadMode_unconditional (s : State W) :
  result BSP_NOR_ReturnToReadMode s = tt
  /\ calls BSP_NOR_ReturnToReadMode s = [Call_HAL_NOR_ReturnToReadMode]
  /\ final BSP_NOR_ReturnToReadMode s
     = mkState (norHandle s) (Timing s)
               (return_to_read_mode (norHandle s) (hw s))
  /\ (forall (A : Type) (before : M W A),
         calls (before ;; BSP_NOR_ReturnToReadMode) s
         = calls before s ++ [Call_HAL_NOR_ReturnToReadMode]
         /\ final (before ;; BSP_NOR_ReturnToReadMode) s
            = mkState (norHandle (final before s)) (Timing (final before s))
                (return_to_read_mode (norHandle (final before s))
                                     (hw (final before s)))).
Proof.
  split; [reflexivity|]. split; [reflexivity|]. split; [reflexivity|].
  intros A before. rewrite calls_bind, final_bind. split; reflexivity.
Qed.

End Command_claims.

(** ** Initialization and the configuration record *)

Section Init_claims.

Context {hdr : NorHeader} {W : Type} {ctl : Controller W}.

(** What a run of [BSP_NOR_Init] comes to. *)
Lemma Init_run (s : State W) :
  let w1 := board_setup (hw s) in
  let r := fst (open board_handle board_Timing board_Timing w1) in
  let w2 := snd (open board_handle board_Timing board_Timing w1) in
  BSP_NOR_Init s
  = (if negb (HAL_Status_eqb r HAL_OK)
     then NOR_STATUS_ERROR else NOR_STATUS_OK,
     mkState board_handle board_Timing w2,
     [Call_BSP_NOR_MspInit;
      Call_HAL_NOR_Init board_handle board_Timing board_Timing r]).
Proof.
  destruct s as [h t w].
  cbv -[open board_setup].
  match goal with
  | |- context [open ?h0 ?t1 ?t2 ?w0] => destruct (open h0 t1 t2 w0) as [r w']
  end.
  destruct r; reflexivity.
Qed.


(** The word-programming loop does not assign the driver's variables. *)
Lemma WriteData_loop_frame (n : nat) :
  forall (a p : Z) (s : State W),
    norHandle (final (WriteData_loop n a p) s) = norHandle s
    /\ Timing (final (WriteData_loop n a p) s) = Timing s.
Proof.
  induction n as [|n IH]; intros a p s; [split; reflexivity|].
  destruct (WriteData_loop_S n a p s) as (_ & _ & Hf). cbv zeta in Hf.
  rewrite Hf.
  set (s1 := final (HAL_NOR_Program (U32.add NOR_DEVICE_ADDR a) p) s).
  set (s2 := final (HAL_NOR_GetStatus NOR_DEVICE_ADDR PROGRAM_TIMEOUT) s1).
  assert (H2 : norHandle s2 = norHandle s /\ Timing s2 = Timing s).
  { unfold s2, s1, final, HAL_NOR_GetStatus, HAL_NOR_Program, query, effect.
    simpl.
    destruct (get_status (norHandle s) NOR_DEVICE_ADDR PROGRAM_TIMEOUT
                (program_word (norHandle s) (U32.add NOR_DEVICE_ADDR a) p
                              (hw s))); split; reflexivity. }
  destruct (succeeded _); [|exact H2].
  destruct (IH (U32.add a 2) (p + 1) s2) as [Hh Ht].
  destruct H2 as [Hh2 Ht2]. split; congruence.
Qed.

(** A query of the controller does not assign the driver's variables. *)
Lemma query_then_status_frame {R} (f : NOR_HandleTypeDef -> W -> R * W)
    (c : R -> HAL_Call) (k : R -> NOR_Status) (s : State W) :
  config (final (st <- query f c ;; ret (k st)) s) = config s.
Proof.
  unfold config, final, bind, query, ret.
  destruct (f (norHandle s) (hw s)); reflexivity.
Qed.

(** C7: the configuration record (the timing record and the mode flags of
    the handle) is left unchanged by ReadData, WriteData, ProgramData,
    EraseBlock, EraseChip, ReadIdentity and ReturnToReadMode; Initialize
    assigns every field, so that the configuration it leaves is the board's
    whatever it was before. *)
Theorem configuration_frame (s : State W) :
  (forall a p n, config (final (BSP_NOR_ReadData a p n) s) = config s)
  /\ (forall a p n, config (final (BSP_NOR_WriteData a p n) s) = config s)
  /\ (forall a p n, config (final (BSP_NOR_ProgramData a p n) s) = config s)
  /\ (forall b, config (final (BSP_NOR_Erase_Block b) s) = config s)
  /\ config (final BSP_NOR_Erase_Chip s) = config s
  /\ (forall p, config (final (BSP_NOR_Read_ID p) s) = config s)
  /\ config (final BSP_NOR_ReturnToReadMode s) = config s
  /\ config (final BSP_NOR_Init s) = (board_Timing, board_Init)
  /\ (forall s0 : State W,
         config (final BSP_NOR_Init s0) = config (final BSP_NOR_Init s)).
Proof.
  assert (Hpoll : forall (f : NOR_HandleTypeDef -> W -> W) c t,
             config (final (effect f c ;;
                            st <- HAL_NOR_GetStatus NOR_DEVICE_ADDR t ;;
                            if negb (NOR_Status_eqb st NOR_SUCCESS)
                            then ret NOR_STATUS_ERROR
                            else ret NOR_STATUS_OK) s) = config s).
  { intros f c t.
    unfold config, final, bind, effect, HAL_NOR_GetStatus, query. simpl.
    destruct (get_status (norHandle s) NOR_DEVICE_ADDR t
                         (f (norHandle s) (hw s))) as [r w].
    destruct r; reflexivity. }
  assert (Hquery : forall (f : NOR_HandleTypeDef -> W -> HAL_StatusTypeDef * W)
                          c,
             config (final (st <- query f c ;;
                            if negb (HAL_Status_eqb st HAL_OK)
                            then ret NOR_STATUS_ERROR
                            else ret NOR_STATUS_OK) s) = config s).
  { intros f c. unfold config, final, bind, query.
    destruct (f (norHandle s) (hw s)) as [r w]. destruct r; reflexivity. }
  assert (Hinit : forall s0 : State W,
             config (final BSP_NOR_Init s0) = (board_Timing, board_Init)).
  { intro s0. pose proof (Init_run s0) as H. cbv zeta in H.
    unfold final. rewrite H. reflexivity. }
  repeat split.
  - intros a p n. apply Hquery.
  - intros a p n. unfold BSP_NOR_WriteData, config.
    destruct (WriteData_loop_frame (Z.to_nat n) a p s) as [Hh Ht].
    rewrite Hh, Ht. reflexivity.
  - intros a p n. apply Hpoll.
  - intro b. apply Hpoll.
  - apply Hpoll.
  - intro p. apply Hquery.
  - apply Hinit.
  - intro s0. rewrite !Hinit. reflexivity.
Qed.

End Init_claims.

(** ** Addresses passed on the data path *)

Lemma nth_error_map_seq {A} (f : nat -> A) (n : nat) :
  forall (a i : nat) (c : A),
    nth_error (map f (seq a n)) i = Some c -> c = f (a + i)%nat.
Proof.
  induction n as [|n IH]; intros a i c H.
  - destruct i; discriminate H.
  - destruct i as [|i]; simpl in H.
    + injection H as <-. f_equal. lia.
    + apply IH in H. subst c. f_equal. lia.
Qed.

Section Address_claims.

Context {hdr : NorHeader} {W : Type} {ctl : Controller W}.

(** C1 (as amended): ReadData issues its bulk-read command at the base
    address plus the caller's offset, and the [i]-th program command of
    WriteData is issued at the base address plus the offset plus [2 * i]
    (32-bit sums); ProgramData passes the caller's offset unchanged to the
    buffered-program command, and the base address only to the status poll. *)
Theorem data_path_addresses (s : State W) (addr pData n : Z) :
  (exists r : HAL_StatusTypeDef,
      calls (BSP_NOR_ReadData addr pData n) s
      = [Call_HAL_NOR_ReadBuffer (U32.wrap (NOR_DEVICE_ADDR + addr))
                                 pData n r])
  /\ (forall (N i : nat) (c : HAL_Call),
         nth_error
           (programs (calls (BSP_NOR_WriteData addr pData (Z.of_nat N)) s)) i
         = Some c ->
         c = Call_HAL_NOR_Program
               (U32.wrap (NOR_DEVICE_ADDR + addr + 2 * Z.of_nat i))
               (pData + Z.of_nat i))
  /\ (exists r : HAL_NOR_StatusTypeDef,
         calls (BSP_NOR_ProgramData addr pData n) s
         = [Call_HAL_NOR_ProgramBuffer addr pData n;
            Call_HAL_NOR_GetStatus NOR_DEVICE_ADDR PROGRAM_TIMEOUT r]).
Proof.
  split; [|split].
  - unfold calls, BSP_NOR_ReadData, bind, HAL_NOR_ReadBuffer, query.
    destruct (bulk_read (norHandle s) (U32.add NOR_DEVICE_ADDR addr) pData n
                        (hw s)) as [r w].
    exists r. destruct r; reflexivity.
  - intros N i c H.
    destruct (WriteData_spec addr pData N s) as (rs & Hc & _).
    rewrite Hc, programs_cycles_from in H.
    apply nth_error_map_seq in H. exact H.
  - destruct (command_then_poll
                (fun h => program_buffer h addr pData n)
                (Call_HAL_NOR_ProgramBuffer addr pData n) PROGRAM_TIMEOUT s)
      as (r & Hc & _).
    exists r. exact Hc.
Qed.

End Address_claims.

(** ** The ready/busy wait *)

Section MspWait_claims.

Context {hdr : NorHeader} {W : Type} {ctl : Controller W}.

Lemma ReadPin_one_call (port pin : Z) (s : State W) :
  length (calls (HAL_GPIO_ReadPin port pin) s) = 1%nat.
Proof.
  unfold calls, HAL_GPIO_ReadPin, query.
  destruct (read_pin port pin (hw s)); reflexivity.
Qed.

(** A decrement of a positive counter does not increase it. *)
Lemma sub32_decreases (t : Z) :
  0 < t -> (Z.to_nat (U32.sub t 1) < Z.to_nat t)%nat.
Proof.
  intro Ht. unfold U32.sub, U32.wrap.
  assert (Hm : 0 < U32.modulus) by reflexivity.
  pose proof (Z.mod_pos_bound (t - 1) U32.modulus Hm) as Hb.
  assert (Hle : (t - 1) mod U32.modulus <= t - 1)
    by (apply Z.mod_le; lia).
  lia.
Qed.

(** One polling loop returns as soon as the bound on condition evaluations
    exceeds the counter; its body runs at most as many times as the counter
    says, and the pin is read once more than the body runs. *)
Lemma MspWait_loop_terminates (fuel : nat) :
  forall (awaited : GPIO_PinState) (t : Z) (n : nat) (s : State W),
    (Z.to_nat t < fuel)%nat ->
    exists (t' : Z) (n' : nat),
      result (MspWait_loop fuel awaited t n) s = Some (t', n')
      /\ (n <= n')%nat /\ (n' - n <= Z.to_nat t)%nat
      /\ length (calls (MspWait_loop fuel awaited t n) s) = S (n' - n).
Proof.
  induction fuel as [|fuel IH]; intros awaited t n s Hfuel; [lia|].
  simpl MspWait_loop. rewrite result_bind, calls_bind, length_app.
  rewrite ReadPin_one_call.
  set (pin := result (HAL_GPIO_ReadPin NOR_READY_BUSY_GPIO NOR_READY_BUSY_PIN)
                     s).
  set (s1 := final (HAL_GPIO_ReadPin NOR_READY_BUSY_GPIO NOR_READY_BUSY_PIN)
                   s).
  destruct (negb (PinState_eqb pin awaited) && (0 <? t)) eqn:Econd.
  - apply andb_true_iff in Econd as [_ Hpos]. apply Z.ltb_lt in Hpos.
    pose proof (sub32_decreases t Hpos) as Hdec.
    destruct (IH awaited (U32.sub t 1) (S n) s1) as (t' & n' & Hr & H1 & H2 & H3);
      [lia|].
    exists t', n'. rewrite Hr, H3. repeat split; lia.
  - exists t, n. rewrite result_ret, calls_ret. simpl.
    rewrite Nat.sub_diag. repeat split; lia.
Qed.

(** C10: for every timeout budget [T], every controller and every state of
    the outside world (hence every sequence of pin levels), the wait routine
    returns once the bound on condition evaluations exceeds [T]; each of its
    two loops runs its body at most [T] times, and the pin is read once per
    condition evaluation. *)
Theorem MspWait_terminates (s : State W) (T : Z) (fuel : nat) :
  (Z.to_nat T < fuel)%nat ->
  exists n1 n2 : nat,
    result (HAL_NOR_MspWait fuel T) s = Some (n1, n2)
    /\ (n1 <= Z.to_nat T)%nat /\ (n2 <= Z.to_nat T)%nat
    /\ length (calls (HAL_NOR_MspWait fuel T) s) = (n1 + n2 + 2)%nat.
Proof.
  intro Hfuel. unfold HAL_NOR_MspWait.
  rewrite result_bind, calls_bind, length_app.
  destruct (MspWait_loop_terminates fuel NOR_BUSY_STATE T 0 s Hfuel)
    as (t1 & n1 & Hr1 & _ & Hb1 & Hl1).
  rewrite Hr1, Hl1.
  set (s1 := final (MspWait_loop fuel NOR_BUSY_STATE T 0) s).
  rewrite result_bind, calls_bind, length_app.
  destruct (MspWait_loop_terminates fuel NOR_READY_STATE T 0 s1 Hfuel)
    as (t2 & n2 & Hr2 & _ & Hb2 & Hl2).
  rewrite Hr2, Hl2, calls_ret, result_ret.
  exists n1, n2. simpl. repeat split; lia.
Qed.

End MspWait_claims.

(** ** Runs on the simulated board *)

(** The statement of C1 fails for ProgramData: with the base address at
    0x60000000 and the caller's offset 256, the buffered-program command is
    issued with address 256, not with the base address plus 256. *)
Lemma ProgramData_address_counterexample :
  calls (@BSP_NOR_ProgramData Sim.header Sim.Board Sim.controller 256 0 4)
        (Sim.start 5 [])
  = [Call_HAL_NOR_ProgramBuffer 256 0 4;
     Call_HAL_NOR_GetStatus 1610612736 17408 NOR_SUCCESS]
  /\ ~ (forall a p n : Z,
           In (Call_HAL_NOR_ProgramBuffer a p n)
              (calls (@BSP_NOR_ProgramData Sim.header Sim.Board Sim.controller
                        256 0 4)
                     (Sim.start 5 [])) ->
           a = U32.add (@NOR_DEVICE_ADDR Sim.header) 256).
Proof.
  split; [reflexivity|].
  intro H. specialize (H 256 0 4 (or_introl eq_refl)).
  vm_compute in H. discriminate H.
Qed.

(** The second program command of a three-word write at offset 16. *)
Lemma data_path_addresses_witness :
  nth_error
    (programs
       (calls (@BSP_NOR_WriteData Sim.header Sim.Board Sim.controller
                 16 1 (Z.of_nat 3))
              (Sim.start 5 []))) 1
  = Some (Call_HAL_NOR_Program 1610612754 2)
  /\ Call_HAL_NOR_Program 1610612754 2
     = Call_HAL_NOR_Program
         (U32.wrap (@NOR_DEVICE_ADDR Sim.header + 16 + 2 * Z.of_nat 1))
         (1 + Z.of_nat 1).
Proof.
  split; [reflexivity|].
  apply (proj1 (proj2 (@data_path_addresses Sim.header Sim.Board
                         Sim.controller (Sim.start 5 []) 16 1 0)) 3%nat 1%nat).
  reflexivity.
Defined.

(** A three-word write on a board whose polls succeed: the three words of
    the caller's buffer end up in the flash. *)
Lemma WriteData_all_polls_succeed_witness :
  forallb (fun i =>
             succeeded
               (@poll_of_cycle Sim.header Sim.Board Sim.controller
                  (norHandle (Sim.start 5 [])) 16 1 i (hw (Sim.start 5 []))))
          (seq 0 3) = true
  /\ result (@BSP_NOR_WriteData Sim.header Sim.Board Sim.controller
               16 1 (Z.of_nat 3))
            (Sim.start 5 []) = NOR_STATUS_OK
  /\ calls (@BSP_NOR_WriteData Sim.header Sim.Board Sim.controller
              16 1 (Z.of_nat 3))
           (Sim.start 5 [])
     = [Call_HAL_NOR_Program 1610612752 1;
        Call_HAL_NOR_GetStatus 1610612736 17408 NOR_SUCCESS;
        Call_HAL_NOR_Program 1610612754 2;
        Call_HAL_NOR_GetStatus 1610612736 17408 NOR_SUCCESS;
        Call_HAL_NOR_Program 1610612756 3;
        Call_HAL_NOR_GetStatus 1610612736 17408 NOR_SUCCESS]
  /\ Sim.flash
       (hw (final (@BSP_NOR_WriteData Sim.header Sim.Board Sim.controller
                     16 1 (Z.of_nat 3))
                  (Sim.start 5 [])))
     = [(1610612756, 40); (1610612754, 30); (1610612752, 20)].
Proof.
  split; [reflexivity|].
  destruct (@WriteData_all_polls_succeed Sim.header Sim.Board Sim.controller
              (Sim.start 5 []) 16 1 3 eq_refl) as (Hr & Hc & Hf & _).
  split; [exact Hr|]. split; [rewrite Hc; reflexivity|].
  rewrite Hf. reflexivity.
Defined.

(** A five-word write on a board whose third poll fails: three program
    commands were issued and their words are in the flash. *)
Lemma WriteData_fail_fast_witness :
  (1 <= 3 <= 5)%nat
  /\ forallb (fun i =>
                succeeded
                  (@poll_of_cycle Sim.header Sim.Board Sim.controller
                     (norHandle (Sim.start 2 [])) 16 0 i
                     (hw (Sim.start 2 []))))
             (seq 0 (3 - 1)) = true
  /\ succeeded
       (@poll_of_cycle Sim.header Sim.Board Sim.controller
          (norHandle (Sim.start 2 [])) 16 0 (3 - 1) (hw (Sim.start 2 [])))
     = false
  /\ result (@BSP_NOR_WriteData Sim.header Sim.Board Sim.controller
               16 0 (Z.of_nat 5))
            (Sim.start 2 []) = NOR_STATUS_ERROR
  /\ length
       (programs
          (calls (@BSP_NOR_WriteData Sim.header Sim.Board Sim.controller
                    16 0 (Z.of_nat 5))
                 (Sim.start 2 []))) = 3%nat
  /\ Sim.flash
       (hw (final (@BSP_NOR_WriteData Sim.header Sim.Board Sim.controller
                     16 0 (Z.of_nat 5))
                  (Sim.start 2 [])))
     = [(1610612756, 30); (1610612754, 20); (1610612752, 10)].
Proof.
  assert (Hk : (1 <= 3 <= 5)%nat) by lia.
  split; [exact Hk|]. split; [reflexivity|]. split; [reflexivity|].
  destruct (proj1 (@WriteData_fail_fast Sim.header Sim.Board Sim.controller
                     (Sim.start 2 []) 16 0 5)
                  3%nat Hk eq_refl eq_refl)
    as (Hr & _ & Hp & _ & Hf).
  split; [exact Hr|]. split; [exact Hp|]. rewrite Hf. reflexivity.
Defined.

(** A wait with budget 3 on a pin that shows ready, busy, busy, ready. *)
Lemma MspWait_terminates_witness :
  (Z.to_nat 3 < 4)%nat
  /\ exists n1 n2 : nat,
       result (@HAL_NOR_MspWait Sim.header Sim.Board Sim.controller 4 3)
              (Sim.start 0 [GPIO_PIN_SET; GPIO_PIN_RESET;
                            GPIO_PIN_RESET; GPIO_PIN_SET]) = Some (n1, n2)
       /\ (n1 <= Z.to_nat 3)%nat /\ (n2 <= Z.to_nat 3)%nat
       /\ length
            (calls (@HAL_NOR_MspWait Sim.header Sim.Board Sim.controller 4 3)
                   (Sim.start 0 [GPIO_PIN_SET; GPIO_PIN_RESET;
                                 GPIO_PIN_RESET; GPIO_PIN_SET]))
          = (n1 + n2 + 2)%nat.
Proof.
  assert (H : (Z.to_nat 3 < 4)%nat) by (simpl; lia).
  split; [exact H|].
  apply (@MspWait_terminates Sim.header Sim.Board Sim.controller). exact H.
Defined.

(** * Further properties *)

(** ** Reads *)

Section Read_facts.

Context {hdr : NorHeader} {W : Type} {ctl : Controller W}.

(** A single query whose status decides the result. *)
Lemma query_then_status (f : NOR_HandleTypeDef -> W -> HAL_StatusTypeDef * W)
    (c : HAL_StatusTypeDef -> HAL_Call) (s : State W) :
  let op := (st <- query f c ;;
             if negb (HAL_Status_eqb st HAL_OK)
             then ret NOR_STATUS_ERROR
             else ret NOR_STATUS_OK) in
  calls op s = [c (fst (f (norHandle s) (hw s)))]
  /\ hw (final op s) = snd (f (norHandle s) (hw s))
  /\ (result op s = NOR_STATUS_OK <-> fst (f (norHandle s) (hw s)) = HAL_OK).
Proof.
  cbv zeta. unfold calls, result, final, bind, query.
  destruct (f (norHandle s) (hw s)) as [r w].
  destruct r; simpl; repeat split; intro H; try reflexivity; discriminate H.
Qed.

(** ReadData makes exactly one call, the bulk read at the base address plus
    the offset with the caller's buffer and count unchanged (also for a
    count of 0), which the controller carries out on the outside world; it
    makes no status poll, returns OK if and only if the controller's bulk
    read returns success, and leaves the world the bulk read left. *)
Theorem ReadData_one_bulk_read (s : State W) (addr pData n : Z) :
  calls (BSP_NOR_ReadData addr pData n) s
  = [Call_HAL_NOR_ReadBuffer (U32.wrap (NOR_DEVICE_ADDR + addr)) pData n
       (fst (bulk_read (norHandle s) (U32.wrap (NOR_DEVICE_ADDR + addr))
                       pData n (hw s)))]
  /\ final (BSP_NOR_ReadData addr pData n) s
     = mkState (norHandle s) (Timing s)
         (snd (bulk_read (norHandle s) (U32.wrap (NOR_DEVICE_ADDR + addr))
                         pData n (hw s)))
  /\ (result (BSP_NOR_ReadData addr pData n) s = NOR_STATUS_OK
      <-> fst (bulk_read (norHandle s) (U32.wrap (NOR_DEVICE_ADDR + addr))
                         pData n (hw s)) = HAL_OK).
Proof.
  change (U32.wrap (NOR_DEVICE_ADDR + addr))
    with (U32.add NOR_DEVICE_ADDR addr).
  unfold calls, final, result, BSP_NOR_ReadData, HAL_NOR_ReadBuffer, bind,
    query.
  destruct (bulk_read (norHandle s) (U32.add NOR_DEVICE_ADDR addr) pData n
                      (hw s)) as [r w].
  destruct r; cbn; repeat split; intro H; try reflexivity; discriminate H.
Qed.

(** ReadIdentity makes exactly one call, the identifier read with the
    caller's pointer, which the controller carries out on the outside
    world; it makes no status poll, returns OK if and only if the
    controller's identifier read returns success, and leaves the world that
    read left. *)
Theorem Read_ID_one_call (s : State W) (pNOR_ID : Z) :
  calls (BSP_NOR_Read_ID pNOR_ID) s
  = [Call_HAL_NOR_Read_ID pNOR_ID
       (fst (read_id (norHandle s) pNOR_ID (hw s)))]
  /\ final (BSP_NOR_Read_ID pNOR_ID) s
     = mkState (norHandle s) (Timing s)
               (snd (read_id (norHandle s) pNOR_ID (hw s)))
  /\ (result (BSP_NOR_Read_ID pNOR_ID) s = NOR_STATUS_OK
      <-> fst (read_id (norHandle s) pNOR_ID (hw s)) = HAL_OK).
Proof.
  unfold calls, final, result, BSP_NOR_Read_ID, HAL_NOR_Read_ID, bind, query.
  destruct (read_id (norHandle s) pNOR_ID (hw s)) as [r w].
  destruct r; cbn; repeat split; intro H; try reflexivity; discriminate H.
Qed.

End Read_facts.

(** ** Writing in two parts *)

Section Monad_laws.

Context {W : Type}.

Lemma bind_assoc {A B C} (m : M W A) (f : A -> M W B) (g : B -> M W C)
    (s : State W) :
  bind (bind m f) g s = bind m (fun x => bind (f x) g) s.
Proof.
  unfold bind. destruct (m s) as [[a s1] l1].
  destruct (f a s1) as [[b s2] l2]. destruct (g b s2) as [[c s3] l3].
  rewrite app_assoc. reflexivity.
Qed.

Lemma bind_ext {A B} (m : M W A) (f g : A -> M W B) (s : State W) :
  (forall a s', f a s' = g a s') -> bind m f s = bind m g s.
Proof.
  intro H. unfold bind. destruct (m s) as [[a s1] l1]. rewrite H. reflexivity.
Qed.

Lemma bind_ret_l {A B} (a : A) (f : A -> M W B) (s : State W) :
  bind (ret a) f s = f a s.
Proof.
  unfold bind, ret. destruct (f a s) as [[b s2] l2]. reflexivity.
Qed.

End Monad_laws.

Section Split_facts.

Context {hdr : NorHeader} {W : Type} {ctl : Controller W}.

(** The loop depends on its address only modulo 2^32. *)
Lemma WriteData_loop_congr (n : nat) :
  forall (a a' p : Z) (s : State W),
    U32.wrap a = U32.wrap a' ->
    WriteData_loop n a p s = WriteData_loop n a' p s.
Proof.
  induction n as [|n IH]; intros a a' p s Ha; [reflexivity|].
  simpl.
  assert (H1 : U32.add NOR_DEVICE_ADDR a = U32.add NOR_DEVICE_ADDR a')
    by (unfold U32.add; apply wrap_congr_add; exact Ha).
  assert (H2 : U32.add a 2 = U32.add a' 2).
  { unfold U32.add. rewrite (Z.add_comm a), (Z.add_comm a').
    apply wrap_congr_add. exact Ha. }
  rewrite H1, H2. reflexivity.
Qed.

Lemma WriteData_loop_split (n : nat) :
  forall (m : nat) (a p : Z) (s : State W),
    WriteData_loop (n + m) a p s
    = bind (WriteData_loop n a p)
           (then_write (U32.add a (2 * Z.of_nat n)) (p + Z.of_nat n) m) s.
Proof.
  induction n as [|n IH]; intros m a p s.
  - change (WriteData_loop 0 a p) with (@ret W _ NOR_STATUS_OK).
    change (0 + m)%nat with m.
    rewrite bind_ret_l. unfold then_write, BSP_NOR_WriteData.
    rewrite Nat2Z.id, Z.add_0_r.
    apply WriteData_loop_congr. unfold U32.add.
    rewrite Z.add_0_r, wrap_wrap. reflexivity.
  - change (S n + m)%nat with (S (n + m)). simpl WriteData_loop.
    rewrite bind_assoc. apply bind_ext. intros _ s1. cbv beta.
    rewrite bind_assoc. apply bind_ext. intros st s2. cbv beta.
    destruct (negb (NOR_Status_eqb st NOR_SUCCESS)).
    + rewrite bind_ret_l. reflexivity.
    + rewrite IH. apply bind_ext. intros st' s3.
      destruct st'; [|reflexivity]. unfold then_write, BSP_NOR_WriteData.
      rewrite Nat2Z.id.
      replace (p + 1 + Z.of_nat n) with (p + Z.of_nat (S n)) by lia.
      apply WriteData_loop_congr. unfold U32.add.
      rewrite !wrap_wrap, (Z.add_comm (U32.wrap (a + 2))), wrap_add_l.
      replace (2 * Z.of_nat n + (a + 2)) with (a + 2 * Z.of_nat (S n)) by lia.
      reflexivity.
Qed.

End Split_facts.

Section Split_claims.

Context {hdr : NorHeader} {W : Type} {ctl : Controller W}.

(** A write of [n + m] words is, in status, calls and final state, the write
    of the first [n] words followed, if that returned OK, by the write of the
    remaining [m] words at the offset advanced by [2 * n] (a 32-bit sum) and
    the data pointer advanced by [n] words; if the first part returns ERROR
    nothing more is done. *)
Theorem WriteData_in_two_parts (s : State W) (addr pData : Z) (n m : nat) :
  BSP_NOR_WriteData addr pData (Z.of_nat (n + m)) s
  = bind (BSP_NOR_WriteData addr pData (Z.of_nat n))
         (then_write (U32.add addr (2 * Z.of_nat n)) (pData + Z.of_nat n) m)
         s.
Proof.
  unfold BSP_NOR_WriteData at 1 2. rewrite !Nat2Z.id.
  apply WriteData_loop_split.
Qed.

End Split_claims.

(** ** Every sequence of calls *)

Lemma count_calls_app (f : HAL_Call -> bool) (l1 l2 : list HAL_Call) :
  count_calls f (l1 ++ l2) = (count_calls f l1 + count_calls f l2)%nat.
Proof. unfold count_calls. rewrite filter_app, length_app. reflexivity. Qed.

Lemma count_calls_none (f : HAL_Call -> bool) (l : list HAL_Call) :
  forallb (fun c => negb (f c)) l = true -> count_calls f l = 0%nat.
Proof.
  unfold count_calls. induction l as [|c l IH]; simpl; intro H; [reflexivity|].
  apply andb_true_iff in H as [Hc Hl].
  destruct (f c); [discriminate Hc|]. auto.
Qed.

Section Caller_facts.

Context {hdr : NorHeader} {W : Type} {ctl : Controller W}.

Lemma cycles_step_forallb (P : HAL_Call -> bool) :
  (forall a p, P (Call_HAL_NOR_Program a p) = true) ->
  (forall r, P (Call_HAL_NOR_GetStatus NOR_DEVICE_ADDR PROGRAM_TIMEOUT r)
             = true) ->
  forall (rs : list HAL_NOR_StatusTypeDef) (a p : Z),
    forallb P (cycles_step a p rs) = true.
Proof.
  intros Hp Hq. induction rs as [|r rs IH]; intros a p; simpl; [reflexivity|].
  rewrite Hp, Hq, IH. reflexivity.
Qed.

Lemma with_status_run (m : M W NOR_Status) (s : State W) :
  calls (with_status m) s = calls m s
  /\ final (with_status m) s = final m s
  /\ result (with_status m) s = Some (result m s).
Proof.
  unfold with_status, calls, final, result, bind, ret.
  destruct (m s) as [[a s1] l1]. simpl. rewrite app_nil_r. auto.
Qed.

(** The calls each public function makes. *)
Lemma run_op_calls (o : Op) (s : State W) :
  match o with
  | Op_Init =>
      exists r, calls (run_op o) s
                = [Call_BSP_NOR_MspInit;
                   Call_HAL_NOR_Init board_handle board_Timing board_Timing r]
  | Op_ReadData a p n =>
      exists r, calls (run_op o) s
                = [Call_HAL_NOR_ReadBuffer (U32.add NOR_DEVICE_ADDR a) p n r]
  | Op_ReturnToReadMode =>
      calls (run_op o) s = [Call_HAL_NOR_ReturnToReadMode]
  | Op_WriteData a p n =>
      exists rs, calls (run_op o) s = cycles_step a p rs
  | Op_ProgramData a p n =>
      exists r, calls (run_op o) s
                = [Call_HAL_NOR_ProgramBuffer a p n;
                   Call_HAL_NOR_GetStatus NOR_DEVICE_ADDR PROGRAM_TIMEOUT r]
  | Op_Erase_Block b =>
      exists r, calls (run_op o) s
                = [Call_HAL_NOR_Erase_Block b NOR_DEVICE_ADDR;
                   Call_HAL_NOR_GetStatus NOR_DEVICE_ADDR BLOCKERASE_TIMEOUT r]
  | Op_Erase_Chip =>
      exists r, calls (run_op o) s
                = [Call_HAL_NOR_Erase_Chip NOR_DEVICE_ADDR;
                   Call_HAL_NOR_GetStatus NOR_DEVICE_ADDR CHIPERASE_TIMEOUT r]
  | Op_Read_ID p =>
      exists r, calls (run_op o) s = [Call_HAL_NOR_Read_ID p r]
  end.
Proof.
  destruct o as [|a p n| |a p n|a p n|b| |p]; simpl run_op;
    try (rewrite (proj1 (with_status_run _ s))).
  - pose proof (Init_run s) as H. cbv zeta in H. unfold calls. rewrite H.
    eexists. reflexivity.
  - eexists.
    exact (proj1 (query_then_status
                    (fun h => bulk_read h (U32.add NOR_DEVICE_ADDR a) p n)
                    (Call_HAL_NOR_ReadBuffer (U32.add NOR_DEVICE_ADDR a) p n)
                    s)).
  - reflexivity.
  - destruct (WriteData_loop_spec (Z.to_nat n) a p s) as (rs & Hc & _).
    exists rs. exact Hc.
  - destruct (command_then_poll (fun h => program_buffer h a p n)
                (Call_HAL_NOR_ProgramBuffer a p n) PROGRAM_TIMEOUT s)
      as (r & Hc & _). exists r. exact Hc.
  - destruct (command_then_poll (fun h => erase_block h b NOR_DEVICE_ADDR)
                (Call_HAL_NOR_Erase_Block b NOR_DEVICE_ADDR)
                BLOCKERASE_TIMEOUT s) as (r & Hc & _). exists r. exact Hc.
  - destruct (command_then_poll (fun h => erase_chip h NOR_DEVICE_ADDR)
                (Call_HAL_NOR_Erase_Chip NOR_DEVICE_ADDR)
                CHIPERASE_TIMEOUT s) as (r & Hc & _). exists r. exact Hc.
  - eexists.
    exact (proj1 (query_then_status (fun h => read_id h p)
                    (Call_HAL_NOR_Read_ID p) s)).
Qed.

Ltac open_shape H :=
  match type of H with
  | ex _ => let r := fresh "r" in destruct H as [r H]
  | _ => idtac
  end.

Lemma run_op_return_to_read_mode (o : Op) (s : State W) :
  count_calls is_return_to_read_mode (calls (run_op o) s)
  = (if is_Op_ReturnToReadMode o then 1 else 0)%nat.
Proof.
  pose proof (run_op_calls o s) as H.
  destruct o; open_shape H; rewrite H; try reflexivity.
  apply count_calls_none. apply cycles_step_forallb; reflexivity.
Qed.

Lemma run_op_erase (o : Op) (s : State W) :
  count_calls is_erase (calls (run_op o) s)
  = (if is_Op_Erase o then 1 else 0)%nat.
Proof.
  pose proof (run_op_calls o s) as H.
  destruct o; open_shape H; rewrite H; try reflexivity.
  apply count_calls_none. apply cycles_step_forallb; reflexivity.
Qed.

Lemma run_op_driver_call (o : Op) (s : State W) :
  forallb driver_call (calls (run_op o) s) = true.
Proof.
  pose proof (run_op_calls o s) as H.
  destruct o; open_shape H; rewrite H;
    try (apply cycles_step_forallb; intros); simpl;
    rewrite ?Z.eqb_refl, ?orb_true_r; reflexivity.
Qed.

(** The driver's variables after one call. *)
Lemma run_op_variables (o : Op) (s : State W) :
  (norHandle (final (run_op o) s), Timing (final (run_op o) s))
  = if is_Op_Init o then (board_handle, board_Timing)
    else (norHandle s, Timing s).
Proof.
  assert (Hpoll : forall (f : NOR_HandleTypeDef -> W -> W) c t,
             let op := (effect f c ;;
                        st <- HAL_NOR_GetStatus NOR_DEVICE_ADDR t ;;
                        if negb (NOR_Status_eqb st NOR_SUCCESS)
                        then ret NOR_STATUS_ERROR
                        else ret NOR_STATUS_OK) in
             (norHandle (final op s), Timing (final op s))
             = (norHandle s, Timing s)).
  { intros f c t. cbv zeta.
    unfold final, bind, effect, HAL_NOR_GetStatus, query. simpl.
    destruct (get_status (norHandle s) NOR_DEVICE_ADDR t
                         (f (norHandle s) (hw s))) as [r w].
    destruct r; reflexivity. }
  assert (Hquery : forall (f : NOR_HandleTypeDef -> W -> HAL_StatusTypeDef * W)
                          c,
             let op := (st <- query f c ;;
                        if negb (HAL_Status_eqb st HAL_OK)
                        then ret NOR_STATUS_ERROR
                        else ret NOR_STATUS_OK) in
             (norHandle (final op s), Timing (final op s))
             = (norHandle s, Timing s)).
  { intros f c. cbv zeta. unfold final, bind, query.
    destruct (f (norHandle s) (hw s)) as [r w]. destruct r; reflexivity. }
  destruct o as [|a p n| |a p n|a p n|b| |p]; simpl run_op;
    try (rewrite (proj1 (proj2 (with_status_run _ s)))); simpl is_Op_Init.
  - pose proof (Init_run s) as H. cbv zeta in H. unfold final. rewrite H.
    reflexivity.
  - apply Hquery.
  - reflexivity.
  - unfold BSP_NOR_WriteData.
    destruct (WriteData_loop_frame (Z.to_nat n) a p s) as [Hh Ht].
    rewrite Hh, Ht. reflexivity.
  - apply Hpoll.
  - apply Hpoll.
  - apply Hpoll.
  - apply Hquery.
Qed.

Lemma run_caller_Call (o : Op) (k : option NOR_Status -> Caller)
    (s : State W) :
  let st := result (run_op o) s in
  let s1 := final (run_op o) s in
  calls (run_caller (Call o k)) s
  = calls (run_op o) s ++ calls (run_caller (k st)) s1
  /\ result (run_caller (Call o k)) s = o :: result (run_caller (k st)) s1
  /\ final (run_caller (Call o k)) s = final (run_caller (k st)) s1.
Proof.
  cbv zeta. simpl run_caller.
  rewrite !calls_bind, !result_bind, !final_bind, calls_ret, result_ret,
    final_ret, app_nil_r.
  auto.
Qed.

End Caller_facts.

Section Caller_claims.

Context {hdr : NorHeader} {W : Type} {ctl : Controller W}.

(** Along every sequence of calls of the public functions, whatever the
    statuses returned, the return-to-read-mode command is issued exactly as
    many times as the caller calls ReturnToReadMode: no other function
    issues it, in particular not after a write, a program or an erase. *)
Theorem read_mode_only_on_request (c : Caller) :
  forall s : State W,
    count_calls is_return_to_read_mode (calls (run_caller c) s)
    = length (filter is_Op_ReturnToReadMode (result (run_caller c) s)).
Proof.
  induction c as [|o k IH]; intro s; [reflexivity|].
  destruct (run_caller_Call o k s) as (Hc & Hr & _). cbv zeta in Hc, Hr.
  rewrite Hc, Hr, count_calls_app, run_op_return_to_read_mode, IH. simpl.
  destruct (is_Op_ReturnToReadMode o); reflexivity.
Qed.

(** Along every sequence of calls, the number of erase commands issued is
    the number of calls of EraseBlock and EraseChip: writing and programming
    never erase first, and initialization never erases. *)
Theorem erase_only_on_request (c : Caller) :
  forall s : State W,
    count_calls is_erase (calls (run_caller c) s)
    = length (filter is_Op_Erase (result (run_caller c) s)).
Proof.
  induction c as [|o k IH]; intro s; [reflexivity|].
  destruct (run_caller_Call o k s) as (Hc & Hr & _). cbv zeta in Hc, Hr.
  rewrite Hc, Hr, count_calls_app, run_op_erase, IH. simpl.
  destruct (is_Op_Erase o); reflexivity.
Qed.

(** Along every sequence of calls, every status poll is made at the base
    address with one of the three fixed budgets (never with a value supplied
    by the caller), and the public functions never read the ready/busy
    pin. *)
Theorem polls_use_fixed_budgets (c : Caller) :
  forall s : State W, forallb driver_call (calls (run_caller c) s) = true.
Proof.
  induction c as [|o k IH]; intro s; [reflexivity|].
  destruct (run_caller_Call o k s) as (Hc & _). cbv zeta in Hc.
  rewrite Hc, forallb_app, run_op_driver_call, IH. reflexivity.
Qed.

(** Along every sequence of calls, what this file assigns in its two
    variables (the instance, extended instance and mode flags of the handle,
    and the timing record) ends with the board's values if the sequence
    contains a call of Initialize (whether or not it succeeded, and whatever
    came after it); otherwise no function of the sequence has assigned any
    of it.  The bookkeeping the controller layer keeps about the open device
    is on the controller's side of the model. *)
Theorem variables_after_calls (c : Caller) :
  forall s : State W,
    (norHandle (final (run_caller c) s), Timing (final (run_caller c) s))
    = if existsb is_Op_Init (result (run_caller c) s)
      then (board_handle, board_Timing)
      else (norHandle s, Timing s).
Proof.
  induction c as [|o k IH]; intro s; [reflexivity|].
  destruct (run_caller_Call o k s) as (_ & Hr & Hf). cbv zeta in Hr, Hf.
  rewrite Hr, Hf, IH. simpl existsb.
  pose proof (run_op_variables o s) as Hv.
  destruct (existsb is_Op_Init _).
  - rewrite orb_true_r. reflexivity.
  - rewrite orb_false_r. exact Hv.
Qed.

End Caller_claims.

(** ** The ready/busy wait, exactly *)



Section MspWait_facts.

Context {hdr : NorHeader} {W : Type} {ctl : Controller W}.


Lemma MspWait_loop_unfold (fuel : nat) (awaited : GPIO_PinState) (t : Z)
    (n : nat) :
  MspWait_loop (S fuel) awaited t n
  = (pin <- HAL_GPIO_ReadPin NOR_READY_BUSY_GPIO NOR_READY_BUSY_PIN ;;
     if negb (PinState_eqb pin awaited) && (0 <? t)
     then MspWait_loop fuel awaited (U32.sub t 1) (S n)
     else ret (Some (t, n))).
Proof. reflexivity. Qed.



Lemma MspWait_loop_fuel_S (fuel : nat) :
  forall (awaited : GPIO_PinState) (t : Z) (n : nat) (s : State W),
    (Z.to_nat t < fuel)%nat ->
    MspWait_loop (S fuel) awaited t n s = MspWait_loop fuel awaited t n s.
Proof.
  induction fuel as [|fuel IH]; intros awaited t n s Hfuel; [lia|].
  rewrite (MspWait_loop_unfold (S fuel)), (MspWait_loop_unfold fuel).
  apply bind_ext. intros pin s1.
  destruct (negb (PinState_eqb pin awaited) && (0 <? t)) eqn:Econd;
    [|reflexivity].
  apply andb_true_iff in Econd as [_ Hpos]. apply Z.ltb_lt in Hpos.
  pose proof (sub32_decreases t Hpos). apply IH. lia.
Qed.

Lemma MspWait_loop_fuel_least (awaited : GPIO_PinState) (t : Z) (n d : nat)
    (s : State W) :
  MspWait_loop (d + S (Z.to_nat t)) awaited t n s
  = MspWait_loop (S (Z.to_nat t)) awaited t n s.
Proof.
  induction d as [|d IH]; [reflexivity|].
  change (S d + S (Z.to_nat t))%nat with (S (d + S (Z.to_nat t))).
  rewrite MspWait_loop_fuel_S by lia. exact IH.
Qed.

Lemma MspWait_loop_fuel (awaited : GPIO_PinState) (t : Z) (n fuel : nat)
    (s : State W) :
  (Z.to_nat t < fuel)%nat ->
  MspWait_loop fuel awaited t n s
  = MspWait_loop (S (Z.to_nat t)) awaited t n s.
Proof.
  intro H.
  replace fuel with ((fuel - S (Z.to_nat t)) + S (Z.to_nat t))%nat by lia.
  apply MspWait_loop_fuel_least.
Qed.

End MspWait_facts.

Section MspWait_more_claims.

Context {hdr : NorHeader} {W : Type} {ctl : Controller W}.



(** The wait routine has one outcome for a budget [T] and a state: a pair
    of iteration counts (never an exhausted bound), the final state and the
    pin reads made; every run with a bound above [T] yields exactly it. *)
Theorem MspWait_bound_irrelevant (s : State W) (T : Z) :
  exists (n1 n2 : nat) (s' : State W) (l : list HAL_Call),
    forall fuel : nat,
      (Z.to_nat T < fuel)%nat ->
      HAL_NOR_MspWait fuel T s = (Some (n1, n2), s', l).
Proof.
  assert (Hleast : forall fuel : nat,
             (Z.to_nat T < fuel)%nat ->
             HAL_NOR_MspWait fuel T s
             = HAL_NOR_MspWait (S (Z.to_nat T)) T s).
  { intros fuel H. unfold HAL_NOR_MspWait, bind.
    rewrite (MspWait_loop_fuel NOR_BUSY_STATE T 0 fuel s H).
    destruct (MspWait_loop (S (Z.to_nat T)) NOR_BUSY_STATE T 0 s)
      as [[r1 s1] l1].
    destruct r1 as [[t1 n1]|]; [|reflexivity].
    rewrite (MspWait_loop_fuel NOR_READY_STATE T 0 fuel s1 H).
    reflexivity. }
  assert (Hfuel : (Z.to_nat T < S (Z.to_nat T))%nat) by lia.
  destruct (MspWait_loop_terminates (S (Z.to_nat T)) NOR_BUSY_STATE T 0 s
              Hfuel) as (t1 & n1 & Hr1 & _).
  destruct (MspWait_loop_terminates (S (Z.to_nat T)) NOR_READY_STATE T 0
              (final (MspWait_loop (S (Z.to_nat T)) NOR_BUSY_STATE T 0) s)
              Hfuel) as (t2 & n2 & Hr2 & _).
  exists n1, n2, (final (HAL_NOR_MspWait (S (Z.to_nat T)) T) s),
    (calls (HAL_NOR_MspWait (S (Z.to_nat T)) T) s).
  intros fuel H. rewrite (Hleast fuel H).
  assert (Hres : result (HAL_NOR_MspWait (S (Z.to_nat T)) T) s
                 = Some (n1, n2)).
  { unfold HAL_NOR_MspWait. rewrite result_bind, Hr1, result_bind, Hr2.
    reflexivity. }
  unfold result, final, calls in *.
  destruct (HAL_NOR_MspWait (S (Z.to_nat T)) T s) as [[r s'] l].
  cbn [fst snd] in *. rewrite Hres. reflexivity.
Qed.

End MspWait_more_claims.

(** ** Further runs on the simulated board *)



(** The same wait run with two different bounds. *)
Lemma MspWait_bound_irrelevant_witness :
  exists (n1 n2 : nat) (s' : State Sim.Board) (l : list HAL_Call),
    (Z.to_nat 3 < 4)%nat
    /\ (Z.to_nat 3 < 9)%nat
    /\ @HAL_NOR_MspWait Sim.header Sim.Board Sim.controller 4 3
         (Sim.start 0 [GPIO_PIN_SET; GPIO_PIN_RESET]) = (Some (n1, n2), s', l)
    /\ @HAL_NOR_MspWait Sim.header Sim.Board Sim.controller 9 3
         (Sim.start 0 [GPIO_PIN_SET; GPIO_PIN_RESET]) = (Some (n1, n2), s', l).
Proof.
  assert (H1 : (Z.to_nat 3 < 4)%nat) by (simpl; lia).
  assert (H2 : (Z.to_nat 3 < 9)%nat) by (simpl; lia).
  destruct (@MspWait_bound_irrelevant Sim.header Sim.Board Sim.controller
              (Sim.start 0 [GPIO_PIN_SET; GPIO_PIN_RESET]) 3)
    as (n1 & n2 & s' & l & H).
  exists n1, n2, s', l.
  split; [exact H1|]. split; [exact H2|].
  split; [exact (H 4%nat H1) | exact (H 9%nat H2)].
Defined.
